(** * Two tslint rules: no-stateless-class and mocha-no-side-effect-code

  A shallow embedding of the two rule walkers and the properties of
  their behaviour.  The syntax tree, the option list and the regular
  expression engine are supplied from outside the rules; the tree is
  modelled by inductive types carrying the fields the rules read, and
  the helpers the rules import from [./utils] are either parameters of
  a [Section] or small definitions stated next to the place they are
  used. *)

From Stdlib Require Import List String Ascii Bool Arith Lia Permutation.
Import ListNotations.
Open Scope string_scope.
Open Scope list_scope.

(** ** Failures shared by both rules *)

Module Lint.

(** Modelled from the spec: the linter's [createFailure] and
    [addFailure] are not under src/.  A diagnostic is
    "{message, startOffset, width}", and diagnostics are "collected
    into an ordered list", where "duplicates are not merged". *)
Record RuleFailure : Type := createFailure
  { failureStart : nat; failureWidth : nat; failureMessage : string }.

Definition addFailure (failures : list RuleFailure) (failure : RuleFailure)
  : list RuleFailure :=
  failures ++ [failure].

End Lint.

(** ** The no-stateless-class rule *)

Module NoStatelessClass.
Import Lint.

Inductive SyntaxKind : Type :=
| ExtendsKeyword | ImplementsKeyword
| Constructor | MethodDeclaration | PropertyDeclaration
| GetAccessor | SetAccessor | IndexSignature
| StaticKeyword | PublicKeyword | PrivateKeyword | ProtectedKeyword.

Definition SyntaxKind_eqb (a b : SyntaxKind) : bool :=
  match a, b with
  | ExtendsKeyword, ExtendsKeyword | ImplementsKeyword, ImplementsKeyword
  | Constructor, Constructor | MethodDeclaration, MethodDeclaration
  | PropertyDeclaration, PropertyDeclaration
  | GetAccessor, GetAccessor | SetAccessor, SetAccessor
  | IndexSignature, IndexSignature
  | StaticKeyword, StaticKeyword | PublicKeyword, PublicKeyword
  | PrivateKeyword, PrivateKeyword | ProtectedKeyword, ProtectedKeyword => true
  | _, _ => false
  end.

Record Identifier : Type := { text : string }.

Record HeritageClause : Type :=
  { token : SyntaxKind; types : list string }.

Record ClassElement : Type :=
  { kind : SyntaxKind; modifiers : list SyntaxKind }.

(** [heritageClauses] is absent ([None]) on a class that has none. *)
Record ClassDeclaration : Type :=
  { name : option Identifier;
    heritageClauses : option (list HeritageClause);
    members : list ClassElement;
    getStart : nat;
    getWidth : nat }.

Definition FAILURE_STRING : string :=
  "A stateless class was found. This indicates a failure in the object model: ".

Record Walker : Type := { failures : list RuleFailure }.

Definition addFailure (w : Walker) (failure : RuleFailure) : Walker :=
  {| failures := Lint.addFailure (failures w) failure |}.

(** Modelled from the spec: [Utils.exists] is not under src/.  The
    spec words its two uses as "has any inheritance relationship" and
    "has at least one member that ...": some element of the list
    satisfies the predicate; an absent list has none. *)
Definition exists_ {T : Type} (list : option (list T)) (predicate : T -> bool)
  : bool :=
  match list with
  | None => false
  | Some l => existsb predicate l
  end.

(** A concrete reading of "declared static", used to run the rule on
    examples: the member carries the [static] modifier. *)
Definition hasStaticModifier (classElement : ClassElement) : bool :=
  existsb (SyntaxKind_eqb StaticKeyword) (modifiers classElement).

Section Rule.

(** [AstUtils.isStatic] is not under src/: "declared static". *)
Variable isStatic : ClassElement -> bool.

(** The inherited walk over the children of the class. *)
Variable superVisitClassDeclaration : Walker -> ClassDeclaration -> Walker.

Definition isClassStateful (node : ClassDeclaration) : bool :=
  if exists_ (heritageClauses node)
       (fun clause => SyntaxKind_eqb (token clause) ExtendsKeyword)
  then true
  else if Nat.eqb (List.length (members node)) 0
  then false
  else exists_ (Some (members node))
         (fun classElement =>
            if SyntaxKind_eqb (kind classElement) Constructor then false
            else if isStatic classElement then false
            else true).

Definition className (node : ClassDeclaration) : string :=
  match name node with
  | None => "<unknown>"
  | Some n => text n
  end.

Definition visitClassDeclaration (w : Walker) (node : ClassDeclaration)
  : Walker :=
  let w1 :=
    if negb (isClassStateful node)
    then addFailure w
           (createFailure (getStart node) (getWidth node)
              (FAILURE_STRING ++ className node)%string)
    else w in
  superVisitClassDeclaration w1 node.

(** The failure the rule reports for [node]. *)
Definition failureOf (node : ClassDeclaration) : RuleFailure :=
  createFailure (getStart node) (getWidth node)
    (FAILURE_STRING ++ className node)%string.

(** The member is a constructor or is declared static. *)
Definition constructorOrStatic (m : ClassElement) : Prop :=
  kind m = Constructor \/ isStatic m = true.

(** The class has a heritage clause whose token is [extends]. *)
Definition hasExtendsClause (node : ClassDeclaration) : Prop :=
  exists l clause,
    heritageClauses node = Some l /\ In clause l /\ token clause = ExtendsKeyword.

(** The class has heritage clauses, none of them an [extends]. *)
Definition onlyOtherClauses (node : ClassDeclaration) : Prop :=
  exists l,
    heritageClauses node = Some l /\
    Forall (fun clause => token clause <> ExtendsKeyword) l.

(** The class has no heritage clause at all. *)
Definition noHeritage (node : ClassDeclaration) : Prop :=
  heritageClauses node = None \/ heritageClauses node = Some [].

End Rule.

(** [node] with its member list replaced. *)
Definition withMembers (node : ClassDeclaration) (ms : list ClassElement)
  : ClassDeclaration :=
  {| name := name node; heritageClauses := heritageClauses node;
     members := ms; getStart := getStart node; getWidth := getWidth node |}.

(** [node] with its heritage clauses replaced. *)
Definition withHeritage (node : ClassDeclaration)
  (h : option (list HeritageClause)) : ClassDeclaration :=
  {| name := name node; heritageClauses := h;
     members := members node; getStart := getStart node;
     getWidth := getWidth node |}.

(** A walk that finds no class nested in the class it is given. *)
Definition noNestedClasses (w : Walker) (_ : ClassDeclaration) : Walker := w.

(** *** Example classes *)

Definition freshWalker : Walker := {| failures := [] |}.

Definition constructorMember : ClassElement :=
  {| kind := Constructor; modifiers := [] |}.
Definition staticMethod : ClassElement :=
  {| kind := MethodDeclaration; modifiers := [PublicKeyword; StaticKeyword] |}.
Definition staticProperty : ClassElement :=
  {| kind := PropertyDeclaration; modifiers := [StaticKeyword] |}.
Definition instanceMethod : ClassElement :=
  {| kind := MethodDeclaration; modifiers := [PublicKeyword] |}.

(** [class Empty {}] *)
Definition emptyClass : ClassDeclaration :=
  {| name := Some {| text := "Empty" |}; heritageClauses := None;
     members := []; getStart := 0; getWidth := 14 |}.

(** [class Empty extends Base {}] *)
Definition emptyDerivedClass : ClassDeclaration :=
  withHeritage emptyClass (Some [ {| token := ExtendsKeyword; types := ["Base"] |} ]).

(** A class with a constructor, a static method and a static property. *)
Definition staticsOnlyClass : ClassDeclaration :=
  {| name := Some {| text := "Helpers" |}; heritageClauses := None;
     members := [constructorMember; staticMethod; staticProperty];
     getStart := 20; getWidth := 120 |}.

(** The same class declared [implements Service]. *)
Definition implementingClass : ClassDeclaration :=
  withHeritage staticsOnlyClass
    (Some [ {| token := ImplementsKeyword; types := ["Service"] |} ]).

(** The same class declared [extends Base]. *)
Definition derivedClass : ClassDeclaration :=
  withHeritage staticsOnlyClass
    (Some [ {| token := ExtendsKeyword; types := ["Base"] |} ]).

(** The class with its members in another order. *)
Definition reorderedClass : ClassDeclaration :=
  withMembers staticsOnlyClass [staticProperty; constructorMember; staticMethod].

(** A class without a name, as in [export default class { static f() {} }]. *)
Definition anonymousClass : ClassDeclaration :=
  {| name := None; heritageClauses := None; members := [staticMethod];
     getStart := 15; getWidth := 25 |}.

End NoStatelessClass.

(** ** The mocha-no-side-effect-code rule *)

Module MochaNoSideEffectCode.
Import Lint.

(** What every node of the tree answers: its source text, its start
    offset and its width. *)
Record NodeInfo : Type := { text : string; start : nat; width : nat }.

(** Kinds of the nodes without children. *)
Inductive TokenKind : Type :=
| NullKeyword | TrueKeyword | FalseKeyword
| StringLiteral | NumericLiteral
| FirstTemplateToken
| Identifier
| OtherToken (tag : nat).

(** Kinds the rule never names. *)
Inductive OtherKind : Type :=
| Block | BinaryExpression | PrefixUnaryExpression | PostfixUnaryExpression
| TemplateExpression | ParenthesizedExpression | ReturnStatement
| ShorthandPropertyAssignment | MethodDeclaration | FunctionParameter
| UnknownKind (tag : nat).

(** The syntax tree.  A constructor per kind the rule distinguishes,
    with the children in the order the walker visits them.  The
    induction principle is stated with the properties, [Node_induction]. *)
#[local] Unset Elimination Schemes.
Inductive Node : Type :=
| Token (kind : TokenKind) (info : NodeInfo)
| FunctionExpression (info : NodeInfo) (children : list Node)
| ArrowFunction (info : NodeInfo) (children : list Node)
| ArrayLiteralExpression (info : NodeInfo) (elements : list Node)
| TypeAssertionExpression (info : NodeInfo) (type expression : Node)
| PropertyAccessExpression (info : NodeInfo) (expression name : Node)
| ObjectLiteralExpression (info : NodeInfo) (properties : list Node)
| PropertyAssignment (info : NodeInfo) (name initializer : Node)
| CallExpression (info : NodeInfo) (expression : Node)
    (typeArguments arguments : list Node)
| NewExpression (info : NodeInfo) (expression : Node)
    (typeArguments arguments : list Node)
| VariableDeclaration (info : NodeInfo) (name : Node)
    (type initializer : option Node)
| VariableDeclarationList (info : NodeInfo) (declarations : list Node)
| VariableStatement (info : NodeInfo) (declarationList : Node)
| ExpressionStatement (info : NodeInfo) (expression : Node)
| FunctionDeclaration (info : NodeInfo) (children : list Node)
| ClassDeclaration (info : NodeInfo) (children : list Node)
| OtherNode (kind : OtherKind) (info : NodeInfo) (children : list Node).
#[local] Set Elimination Schemes.

Record SourceFile : Type :=
  { fileName : string; statements : list Node }.

Definition info (node : Node) : NodeInfo :=
  match node with
  | Token _ i
  | FunctionExpression i _ | ArrowFunction i _
  | ArrayLiteralExpression i _
  | TypeAssertionExpression i _ _ | PropertyAccessExpression i _ _
  | ObjectLiteralExpression i _ | PropertyAssignment i _ _
  | CallExpression i _ _ _ | NewExpression i _ _ _
  | VariableDeclaration i _ _ _ | VariableDeclarationList i _
  | VariableStatement i _ | ExpressionStatement i _
  | FunctionDeclaration i _ | ClassDeclaration i _
  | OtherNode _ i _ => i
  end.

Definition getText (node : Node) : string := text (info node).
Definition getStart (node : Node) : nat := start (info node).
Definition getWidth (node : Node) : nat := width (info node).

(** The children of a node, in the order the walker visits them. *)
Definition childrenOf (node : Node) : list Node :=
  match node with
  | Token _ _ => []
  | FunctionExpression _ cs | ArrowFunction _ cs
  | ArrayLiteralExpression _ cs | ObjectLiteralExpression _ cs
  | VariableDeclarationList _ cs
  | FunctionDeclaration _ cs | ClassDeclaration _ cs
  | OtherNode _ _ cs => cs
  | TypeAssertionExpression _ a b | PropertyAccessExpression _ a b
  | PropertyAssignment _ a b => [a; b]
  | CallExpression _ e ts args | NewExpression _ e ts args => e :: ts ++ args
  | VariableDeclaration _ n t i =>
      n :: match t with Some x => [x] | None => [] end
        ++ match i with Some x => [x] | None => [] end
  | VariableStatement _ c | ExpressionStatement _ c => [c]
  end.

Definition FAILURE_STRING : string :=
  "Mocha test contains dangerous variable initialization. Move to before()/beforeEach(): ".

(** An entry of the rule's option list: a scalar, [null], or an object
    whose [ignore] field is absent or holds a string. *)
Inductive OptionValue : Type :=
| OptScalar
| OptNull
| OptObject (ignore : option string).

(** What the construction of the walker can throw. *)
Inductive Exception : Type :=
| SyntaxError (pattern : string)
| TypeError.

(** [a === b] for a string that may be undefined. *)
Definition strictEq (a : option string) (b : string) : bool :=
  match a with
  | Some s => String.eqb s b
  | None => false
  end.

(** Modelled from the spec: [AstUtils.isConstant] is not under src/; the
    classifier's second item reads "Literal constants (numbers, strings,
    booleans, null/undefined) -> safe".  ([undefined] is an identifier
    of the tree, which the classifier accepts as one.) *)
Definition isConstant (node : Node) : bool :=
  match node with
  | Token NullKeyword _ | Token TrueKeyword _ | Token FalseKeyword _
  | Token StringLiteral _ | Token NumericLiteral _ => true
  | _ => false
  end.

(** The kinds for which the rule has a handler of its own. *)
Definition hasHandler (node : Node) : bool :=
  match node with
  | VariableDeclaration _ _ _ _ | FunctionDeclaration _ _
  | ClassDeclaration _ _ | CallExpression _ _ _ _ => true
  | _ => false
  end.

Definition isCallExpression (node : Node) : bool :=
  match node with CallExpression _ _ _ _ => true | _ => false end.

Definition isNewExpression (node : Node) : bool :=
  match node with NewExpression _ _ _ _ => true | _ => false end.

(** The initializers [validateExpression] passes to itself when it is
    given [e]. *)
Definition recursiveArguments (e : Node) : list Node :=
  if isConstant e then []
  else
    match e with
    | ArrayLiteralExpression _ elements => elements
    | TypeAssertionExpression _ _ expression => [expression]
    | ObjectLiteralExpression _ properties =>
        flat_map
          (fun element =>
             match element with
             | PropertyAssignment _ _ initializer' => [initializer']
             | _ => []
             end) properties
    | _ => []
    end.

(** What the tests of [validateExpression] that come before the ignore
    pattern decide. *)
Inductive BuiltinDecision : Type :=
| Accepted
| Parts (l : list Node)
| Undecided.

(** The height of a tree: a node without children has height 1. *)
Fixpoint height (node : Node) : nat :=
  let heights :=
    fix heights (l : list Node) : nat :=
      match l with
      | [] => 0
      | c :: l' => Nat.max (height c) (heights l')
      end in
  let heightOpt := fun o : option Node =>
    match o with Some c => height c | None => 0 end in
  S match node with
    | Token _ _ => 0
    | FunctionExpression _ cs | ArrowFunction _ cs
    | ArrayLiteralExpression _ cs | ObjectLiteralExpression _ cs
    | VariableDeclarationList _ cs
    | FunctionDeclaration _ cs | ClassDeclaration _ cs
    | OtherNode _ _ cs => heights cs
    | TypeAssertionExpression _ a b | PropertyAccessExpression _ a b
    | PropertyAssignment _ a b => Nat.max (height a) (height b)
    | CallExpression _ e ts args | NewExpression _ e ts args =>
        Nat.max (height e) (Nat.max (heights ts) (heights args))
    | VariableDeclaration _ n t i =>
        Nat.max (height n) (Nat.max (heightOpt t) (heightOpt i))
    | VariableStatement _ c | ExpressionStatement _ c => height c
    end.

(** [c] is a child of [n]; a proper subexpression is a child of a
    child, any number of times. *)
Definition Child (c n : Node) : Prop := In c (childrenOf n).

Inductive ProperSubexpression : Node -> Node -> Prop :=
| sub_child (c n : Node) : Child c n -> ProperSubexpression c n
| sub_trans (c m n : Node) :
    ProperSubexpression c m -> Child m n -> ProperSubexpression c n.

Definition isVariableDeclaration (node : Node) : bool :=
  match node with VariableDeclaration _ _ _ _ => true | _ => false end.

Definition isVariableStatement (node : Node) : bool :=
  match node with VariableStatement _ _ => true | _ => false end.

(** The option gives an ignore string. *)
Definition givesIgnore (opt : OptionValue) : Prop :=
  exists source, opt = OptObject (Some source).

(** An expression made of constants, function literals, template
    strings, identifiers and property accesses, put together with array
    literals, object literals and type assertions. *)
Fixpoint inert (e : Node) : bool :=
  isConstant e
  || match e with
     | FunctionExpression _ _ | ArrowFunction _ _ => true
     | Token FirstTemplateToken _ | Token Identifier _ => true
     | PropertyAccessExpression _ _ _ => true
     | ArrayLiteralExpression _ elements =>
         (fix all (l : list Node) : bool :=
            match l with
            | [] => true
            | x :: l' => inert x && all l'
            end) elements
     | TypeAssertionExpression _ _ expression => inert expression
     | ObjectLiteralExpression _ properties =>
         (fix all (l : list Node) : bool :=
            match l with
            | [] => true
            | PropertyAssignment _ _ initializer' :: l' =>
                inert initializer' && all l'
            | _ :: l' => all l'
            end) properties
     | _ => false
     end.

Section Walker.

(** The regular expressions of the language: [RegExp_new] is
    [new RegExp(source)], [None] when it throws; [RegExp_test] is
    [regex.test(text)]. *)
Variable RegExp : Type.
Variable RegExp_new : string -> option RegExp.
Variable RegExp_test : RegExp -> string -> bool.

(** Helpers of [./utils] that are not under src/. *)
Variable isConstantExpression : Node -> bool.
Variable getFunctionName : Node -> option string.
Variable getFunctionTarget : Node -> option string.
Variable trimTo : string -> nat -> string.
Variable isMochaTest : SourceFile -> bool.
Variable isStatementDescribeCall : Node -> bool.

Record Walker : Type :=
  { isInDescribe : bool;
    ignoreRegex : option RegExp;
    failures : list RuleFailure }.

Definition setIsInDescribe (w : Walker) (b : bool) : Walker :=
  {| isInDescribe := b; ignoreRegex := ignoreRegex w; failures := failures w |}.

Definition setIgnoreRegex (w : Walker) (r : RegExp) : Walker :=
  {| isInDescribe := isInDescribe w; ignoreRegex := Some r;
     failures := failures w |}.

Definition addFailure (w : Walker) (failure : RuleFailure) : Walker :=
  {| isInDescribe := isInDescribe w; ignoreRegex := ignoreRegex w;
     failures := Lint.addFailure (failures w) failure |}.

(** [this.getOptions().forEach(...)]: the first entry that throws ends
    the loop. *)
Fixpoint parseOptions (w : Walker) (options : list OptionValue)
  : Exception + Walker :=
  match options with
  | [] => inr w
  | opt :: rest =>
      match opt with
      | OptScalar => parseOptions w rest
      | OptNull => inl TypeError
      | OptObject None => parseOptions w rest
      | OptObject (Some source) =>
          match RegExp_new source with
          | None => inl (SyntaxError source)
          | Some r => parseOptions (setIgnoreRegex w r) rest
          end
      end
  end.

(** The constructor of the walker. *)
Definition newWalker (sourceFile : SourceFile) (options : list OptionValue)
  : Exception + Walker :=
  parseOptions {| isInDescribe := false; ignoreRegex := None; failures := [] |}
    options.

(** The failure [validateExpression] reports on [parentNode]. *)
Definition failureAt (parentNode : Node) : RuleFailure :=
  createFailure (getStart parentNode) (getWidth parentNode)
    (FAILURE_STRING ++ trimTo (getText parentNode) 30)%string.

(** The end of [validateExpression], from the [moment()] test on: the
    checks made on an initializer of none of the kinds tested before. *)
Definition validateRemaining (w : Walker) (initializer parentNode : Node)
  : Walker :=
  if String.eqb (getText initializer) "moment()" then w
  else if isCallExpression initializer
          && strictEq (getFunctionTarget initializer) "moment()" then w
  else if isNewExpression initializer
          && strictEq (getFunctionName initializer) "Date" then w
  else if match ignoreRegex w with
          | Some r => RegExp_test r (getText initializer)
          | None => false
          end then w
  else if isConstantExpression initializer then w
  else addFailure w (failureAt parentNode).

(** [validateExpression] on an initializer that is not null. *)
Fixpoint validateNode (w : Walker) (initializer parentNode : Node)
  {struct initializer} : Walker :=
  if isConstant initializer then w
  else
    match initializer with
    | FunctionExpression _ _ | ArrowFunction _ _ => w
    | ArrayLiteralExpression _ elements =>
        (fix forEach (w : Walker) (l : list Node) : Walker :=
           match l with
           | [] => w
           | expression :: l' =>
               forEach (validateNode w expression parentNode) l'
           end) w elements
    | Token FirstTemplateToken _ => w
    | TypeAssertionExpression _ _ expression =>
        validateNode w expression parentNode
    | PropertyAccessExpression _ _ _ => w
    | Token Identifier _ => w
    | ObjectLiteralExpression _ properties =>
        (fix forEach (w : Walker) (l : list Node) : Walker :=
           match l with
           | [] => w
           | element :: l' =>
               forEach
                 match element with
                 | PropertyAssignment _ _ initializer' =>
                     validateNode w initializer' parentNode
                 | _ => w
                 end l'
           end) w properties
    | _ => validateRemaining w initializer parentNode
    end.

Definition validateExpression (w : Walker) (initializer : option Node)
  (parentNode : Node) : Walker :=
  match initializer with
  | None => w
  | Some e => validateNode w e parentNode
  end.

Definition visitVariableDeclaration (w : Walker) (node : Node) : Walker :=
  match node with
  | VariableDeclaration _ _ _ initializer =>
      if Bool.eqb (isInDescribe w) true
      then validateExpression w initializer node
      else w
  | _ => w
  end.

Definition isDescribeCall (node expression : Node) : bool :=
  strictEq (getFunctionName node) "describe"
  || String.eqb (getText expression) "describe.skip".

Definition isLifecycleCall (node : Node) : bool :=
  let functionName := getFunctionName node in
  strictEq functionName "it"
  || strictEq functionName "before" || strictEq functionName "beforeEach"
  || strictEq functionName "after" || strictEq functionName "afterEach".

(** [visitCallExpression] on a call [node] whose callee is [expression];
    [superVisitCallExpression] is the inherited walk over the children
    of [node]. *)
Definition visitCallExpressionWith
  (superVisitCallExpression : Walker -> Walker)
  (w : Walker) (node expression : Node) : Walker :=
  if isDescribeCall node expression then
    let nestedSubscribe := isInDescribe w in
    let w1 := setIsInDescribe w true in
    let w2 := superVisitCallExpression w1 in
    if Bool.eqb nestedSubscribe false then setIsInDescribe w2 false else w2
  else if isLifecycleCall node then w
  else if isInDescribe w then validateExpression w (Some node) node
  else w.

(** Modelled from the spec: the walker the rule extends is not under
    src/.  "For each node kind, if hooks defines a handler for that
    kind, the handler is invoked ...; if no handler is defined for a
    kind, children are visited with default recursive behavior."  The
    handlers are those of the rule: variable declarations, function and
    class declarations, and calls. *)
Fixpoint visitNode (w : Walker) (node : Node) {struct node} : Walker :=
  let walkChildren :=
    fix walkChildren (w : Walker) (l : list Node) : Walker :=
      match l with
      | [] => w
      | child :: l' => walkChildren (visitNode w child) l'
      end in
  match node with
  | VariableDeclaration _ _ _ _ => visitVariableDeclaration w node
  | FunctionDeclaration _ _ => w
  | ClassDeclaration _ _ => w
  | CallExpression _ expression typeArguments arguments =>
      visitCallExpressionWith
        (fun w' =>
           walkChildren (walkChildren (visitNode w' expression) typeArguments)
             arguments)
        w node expression
  | Token _ _ => w
  | FunctionExpression _ cs | ArrowFunction _ cs
  | ArrayLiteralExpression _ cs | ObjectLiteralExpression _ cs
  | VariableDeclarationList _ cs | OtherNode _ _ cs => walkChildren w cs
  | TypeAssertionExpression _ a b | PropertyAccessExpression _ a b
  | PropertyAssignment _ a b => visitNode (visitNode w a) b
  | NewExpression _ expression typeArguments arguments =>
      walkChildren (walkChildren (visitNode w expression) typeArguments)
        arguments
  | VariableStatement _ c | ExpressionStatement _ c => visitNode w c
  end.

Definition walkChildren (w : Walker) (l : list Node) : Walker :=
  fold_left visitNode l w.

Definition visitCallExpression (w : Walker) (node : Node) : Walker :=
  match node with
  | CallExpression _ expression _ _ =>
      visitCallExpressionWith (fun w' => walkChildren w' (childrenOf node))
        w node expression
  | _ => w
  end.

(** [visitSourceFile].  The cast of a statement accepted by
    [MochaUtils.isStatementDescribeCall] to an expression statement
    holding a call is a match. *)
Definition visitSourceFile (w : Walker) (node : SourceFile) : Walker :=
  if isMochaTest node then
    fold_left
      (fun w statement =>
         let w1 :=
           match statement with
           | VariableStatement _ (VariableDeclarationList _ declarations) =>
               fold_left
                 (fun w declaration =>
                    match declaration with
                    | VariableDeclaration _ _ _ initializer =>
                        validateExpression w initializer declaration
                    | _ => w
                    end) declarations w
           | _ => w
           end in
         if isStatementDescribeCall statement then
           match statement with
           | ExpressionStatement _ call => visitCallExpression w1 call
           | _ => w1
           end
         else w1)
      (statements node) w
  else w.

(** [Rule.apply]: the walker is built, then walks the file, and its
    failures are returned. *)
Definition apply (sourceFile : SourceFile) (options : list OptionValue)
  : Exception + list RuleFailure :=
  match newWalker sourceFile options with
  | inl e => inl e
  | inr w => inr (failures (visitSourceFile w sourceFile))
  end.

(** *** The recursion of [validateExpression], with a bound *)

(** A loop over a list that stops at the first step without a result. *)
Fixpoint forEachM {A S : Type} (f : S -> A -> option S) (l : list A) (s : S)
  : option S :=
  match l with
  | [] => Some s
  | a :: l' =>
      match f s a with
      | Some s' => forEachM f l' s'
      | None => None
      end
  end.

(** The body of [validateExpression] as the source writes it, null test
    included, with its recursive calls made through [self]. *)
Definition validateExpressionBody
  (self : Walker -> option Node -> Node -> option Walker)
  (w : Walker) (initializer : option Node) (parentNode : Node)
  : option Walker :=
  match initializer with
  | None => Some w
  | Some e =>
      if isConstant e then Some w
      else
        match e with
        | FunctionExpression _ _ | ArrowFunction _ _ => Some w
        | ArrayLiteralExpression _ elements =>
            forEachM (fun w expression => self w (Some expression) parentNode)
              elements w
        | Token FirstTemplateToken _ => Some w
        | TypeAssertionExpression _ _ expression =>
            self w (Some expression) parentNode
        | PropertyAccessExpression _ _ _ => Some w
        | Token Identifier _ => Some w
        | ObjectLiteralExpression _ properties =>
            forEachM
              (fun w element =>
                 match element with
                 | PropertyAssignment _ _ initializer' =>
                     self w (Some initializer') parentNode
                 | _ => Some w
                 end) properties w
        | _ => Some (validateRemaining w e parentNode)
        end
  end.

(** [validateExpression] run with at most [fuel] nested calls; [None]
    when the bound is reached. *)
Fixpoint validateExpressionFuel (fuel : nat) (w : Walker)
  (initializer : option Node) (parentNode : Node) : option Walker :=
  match fuel with
  | 0 => None
  | S k => validateExpressionBody (validateExpressionFuel k) w initializer parentNode
  end.

(** *** Words for the properties *)

(** The option is read without an exception. *)
Definition accepted (opt : OptionValue) : Prop :=
  match opt with
  | OptNull => False
  | OptObject (Some source) => RegExp_new source <> None
  | _ => True
  end.

(** The tests before the ignore pattern, in the order of the source:
    constants, function literals, array literals, template strings,
    type assertions, property accesses, identifiers, object literals,
    [moment()], [new Date]. *)
Definition builtinDecision (e : Node) : BuiltinDecision :=
  if isConstant e then Accepted
  else
    match e with
    | FunctionExpression _ _ | ArrowFunction _ _ => Accepted
    | ArrayLiteralExpression _ _ => Parts (recursiveArguments e)
    | Token FirstTemplateToken _ => Accepted
    | TypeAssertionExpression _ _ _ => Parts (recursiveArguments e)
    | PropertyAccessExpression _ _ _ => Accepted
    | Token Identifier _ => Accepted
    | ObjectLiteralExpression _ _ => Parts (recursiveArguments e)
    | _ =>
        if String.eqb (getText e) "moment()" then Accepted
        else if isCallExpression e
                && strictEq (getFunctionTarget e) "moment()" then Accepted
        else if isNewExpression e
                && strictEq (getFunctionName e) "Date" then Accepted
        else Undecided
    end.

(** The ignore pattern of the walker matches the text of [e]. *)
Definition ignored (w : Walker) (e : Node) : bool :=
  match ignoreRegex w with
  | Some r => RegExp_test r (getText e)
  | None => false
  end.

(** [w] with [extra] failures more. *)
Definition plus (w : Walker) (extra : list RuleFailure) : Walker :=
  {| isInDescribe := isInDescribe w; ignoreRegex := ignoreRegex w;
     failures := failures w ++ extra |}.

(** [w'] is [w] with failures more, each the failure of [parentNode]. *)
Definition Grows (parentNode : Node) (w w' : Walker) : Prop :=
  exists extra,
    w' = plus w extra /\ Forall (eq (failureAt parentNode)) extra.

(** The classifier deems [e] safe: validating it for [parentNode]
    reports nothing. *)
Definition Safe (w : Walker) (e parentNode : Node) : Prop :=
  validateExpression w (Some e) parentNode = w.

(** *** The nodes a walk visits *)

(** The calls of [visitNode] made during [visitNode w node], in order,
    each with the walker it is given. *)
Fixpoint visitTrace (w : Walker) (node : Node) {struct node}
  : list (Walker * Node) :=
  let traceChildren :=
    fix traceChildren (w : Walker) (l : list Node) : list (Walker * Node) :=
      match l with
      | [] => []
      | child :: l' =>
          visitTrace w child ++ traceChildren (visitNode w child) l'
      end in
  (w, node) ::
  match node with
  | VariableDeclaration _ _ _ _ => []
  | FunctionDeclaration _ _ => []
  | ClassDeclaration _ _ => []
  | CallExpression _ expression typeArguments arguments =>
      if isDescribeCall node expression then
        let w1 := setIsInDescribe w true in
        let w2 := visitNode w1 expression in
        visitTrace w1 expression
        ++ traceChildren w2 typeArguments
        ++ traceChildren (walkChildren w2 typeArguments) arguments
      else []
  | Token _ _ => []
  | FunctionExpression _ cs | ArrowFunction _ cs
  | ArrayLiteralExpression _ cs | ObjectLiteralExpression _ cs
  | VariableDeclarationList _ cs | OtherNode _ _ cs => traceChildren w cs
  | TypeAssertionExpression _ a b | PropertyAccessExpression _ a b
  | PropertyAssignment _ a b => visitTrace w a ++ visitTrace (visitNode w a) b
  | NewExpression _ expression typeArguments arguments =>
      let w2 := visitNode w expression in
      visitTrace w expression
      ++ traceChildren w2 typeArguments
      ++ traceChildren (walkChildren w2 typeArguments) arguments
  | VariableStatement _ c | ExpressionStatement _ c => visitTrace w c
  end.

(** The calls made while the nodes of [l] are visited one after the
    other. *)
Fixpoint traceChildren (w : Walker) (l : list Node) : list (Walker * Node) :=
  match l with
  | [] => []
  | child :: l' => visitTrace w child ++ traceChildren (visitNode w child) l'
  end.

(** Every call of a trace was made with the flag set. *)
Definition allActive (t : list (Walker * Node)) : Prop :=
  Forall (fun entry => isInDescribe (fst entry) = true) t.

(** *** Words for the further properties *)

(** [f] is the failure of a variable declaration or of a call that the
    trace [t] visits with the flag set. *)
Definition anchored (t : list (Walker * Node)) (f : RuleFailure) : Prop :=
  exists w0 d,
    In (w0, d) t /\ isInDescribe w0 = true /\
    (isCallExpression d = true \/ isVariableDeclaration d = true) /\
    f = failureAt d.

(** [f] is the failure of a variable declaration or of a call of the
    file: of a node below one of its statements. *)
Definition reportedIn (file : SourceFile) (f : RuleFailure) : Prop :=
  exists d statement,
    In statement (statements file) /\ ProperSubexpression d statement /\
    (isCallExpression d = true \/ isVariableDeclaration d = true) /\
    f = failureAt d.

(** No call in the tree [n], [n] included, is a describe call. *)
Definition describeFree (n : Node) : Prop :=
  forall d,
    d = n \/ ProperSubexpression d n ->
    match d with
    | CallExpression _ e _ _ => isDescribeCall d e = false
    | _ => True
    end.

End Walker.

(** *** Concrete helpers, to run the walker on examples *)

(** A reading of [AstUtils.getFunctionName]: the text of the callee
    when it is an identifier, of the accessed name when it is a
    property access. *)
Definition calleeName (node : Node) : option string :=
  match node with
  | CallExpression _ e _ _ | NewExpression _ e _ _ =>
      match e with
      | Token Identifier i => Some (text i)
      | PropertyAccessExpression _ _ name => Some (getText name)
      | _ => None
      end
  | _ => None
  end.

(** A reading of [AstUtils.getFunctionTarget]: the text of what the
    callee is accessed on. *)
Definition calleeTarget (node : Node) : option string :=
  match node with
  | CallExpression _ (PropertyAccessExpression _ target _) _ _ =>
      Some (getText target)
  | _ => None
  end.

(** A reading of [Utils.trimTo]. *)
Definition trimToLength (source : string) (maxLength : nat) : string :=
  if Nat.leb (String.length source) maxLength then source
  else (substring 0 (maxLength - 2) source ++ "...")%string.

(** A reading of [MochaUtils.isStatementDescribeCall] and
    [MochaUtils.isMochaTest]. *)
Definition describeStatement (statement : Node) : bool :=
  match statement with
  | ExpressionStatement _ (CallExpression _ _ _ _ as call) =>
      strictEq (calleeName call) "describe"
  | _ => false
  end.

Definition hasDescribeStatement (node : SourceFile) : bool :=
  existsb describeStatement (statements node).

(** A fragment of the pattern language: an optional [^], then literal
    characters and escaped syntax characters, then an optional [$].
    Every other use of a syntax character is refused, among them the
    patterns that do not compile (an open group, a lone quantifier, a
    backslash at the end). *)
Record LiteralPattern : Type :=
  { fromStart : bool; toEnd : bool; literal : string }.

Definition syntaxCharacters : string := "^$\.*+?()[]{}|/".

Fixpoint occurs (c : ascii) (s : string) : bool :=
  match s with
  | EmptyString => false
  | String d s' => Ascii.eqb c d || occurs c s'
  end.

Fixpoint parseLiteral (s : string) : option (string * bool) :=
  match s with
  | EmptyString => Some (EmptyString, false)
  | String c rest =>
      if Ascii.eqb c "\" then
        match rest with
        | String d rest' =>
            if occurs d syntaxCharacters then
              match parseLiteral rest' with
              | Some (l, e) => Some (String d l, e)
              | None => None
              end
            else None
        | EmptyString => None
        end
      else if Ascii.eqb c "$" then
        match rest with
        | EmptyString => Some (EmptyString, true)
        | _ => None
        end
      else if occurs c syntaxCharacters then None
      else
        match parseLiteral rest with
        | Some (l, e) => Some (String c l, e)
        | None => None
        end
  end.

Definition compilePattern (source : string) : option LiteralPattern :=
  match source with
  | String "^" rest =>
      match parseLiteral rest with
      | Some (l, e) => Some {| fromStart := true; toEnd := e; literal := l |}
      | None => None
      end
  | _ =>
      match parseLiteral source with
      | Some (l, e) => Some {| fromStart := false; toEnd := e; literal := l |}
      | None => None
      end
  end.

(** Does [l] occur in [s] at some offset (up to its end when [toEnd])? *)
Fixpoint occursFrom (toEnd : bool) (l s : string) : bool :=
  (if toEnd then String.eqb l s else prefix l s)
  || match s with
     | EmptyString => false
     | String _ s' => occursFrom toEnd l s'
     end.

Definition testPattern (p : LiteralPattern) (s : string) : bool :=
  if fromStart p then
    if toEnd p then String.eqb (literal p) s else prefix (literal p) s
  else occursFrom (toEnd p) (literal p) s.

(** The walker over these helpers. *)
Definition W : Type := Walker LiteralPattern.

Definition validate : W -> option Node -> Node -> W :=
  validateExpression LiteralPattern testPattern isConstant calleeName
    calleeTarget trimToLength.

Definition visit : W -> Node -> W :=
  visitNode LiteralPattern testPattern isConstant calleeName calleeTarget
    trimToLength.

Definition trace : W -> Node -> list (W * Node) :=
  visitTrace LiteralPattern testPattern isConstant calleeName calleeTarget
    trimToLength.

Definition applyRule : SourceFile -> list OptionValue
                       -> Exception + list RuleFailure :=
  apply LiteralPattern compilePattern testPattern isConstant calleeName
    calleeTarget trimToLength hasDescribeStatement describeStatement.

Definition outside : W :=
  {| isInDescribe := false; ignoreRegex := None; failures := [] |}.

Definition inside : W :=
  {| isInDescribe := true; ignoreRegex := None; failures := [] |}.

(** *** Example trees *)

Definition at_ (s : nat) (t : string) : NodeInfo :=
  {| text := t; start := s; width := String.length t |}.

Definition identifier (s : nat) (t : string) : Node := Token Identifier (at_ s t).

(** [f(args)], the callee an identifier. *)
Definition callOf (s : nat) (f : string) (t : string) (args : list Node)
  : Node :=
  CallExpression (at_ s t) (identifier s f) [] args.

(** [x = init] *)
Definition declare (s : nat) (init : Node) : Node :=
  VariableDeclaration (at_ s ("x = " ++ getText init)%string)
    (identifier s "x") None (Some init).

(** [var x = init;] *)
Definition varStatement (s : nat) (init : Node) : Node :=
  VariableStatement (at_ s ("var x = " ++ getText init ++ ";")%string)
    (VariableDeclarationList (at_ s ("var x = " ++ getText init)%string)
       [declare (s + 4) init]).

(** [() => { statement }] *)
Definition arrowOf (s : nat) (statement : Node) : Node :=
  ArrowFunction (at_ s ("() => { " ++ getText statement ++ " }")%string)
    [OtherNode Block (at_ (s + 6) ("{ " ++ getText statement ++ " }")%string)
       [statement]].

(** [f(() => { statement });] *)
Definition blockCall (s : nat) (f : string) (statement : Node) : Node :=
  let t := (f ++ "(" ++ getText (arrowOf 0 statement) ++ ")")%string in
  ExpressionStatement (at_ s (t ++ ";")%string)
    (callOf s f t [arrowOf (s + String.length f + 1) statement]).

Definition someFunctionCall (s : nat) : Node :=
  callOf s "someFunctionCall" "someFunctionCall()" [].

Definition someFunctionCall1 (s : nat) : Node :=
  callOf s "someFunctionCall" "someFunctionCall(1)"
    [Token NumericLiteral (at_ (s + 17) "1")].

Definition five (s : nat) : Node := Token NumericLiteral (at_ s "5").

(** [[5, someFunctionCall()]] and [[5, 5]] *)
Definition unsafeArray (s : nat) : Node :=
  ArrayLiteralExpression (at_ s "[5, someFunctionCall()]")
    [five (s + 1); someFunctionCall (s + 4)].

Definition safeArray (s : nat) : Node :=
  ArrayLiteralExpression (at_ s "[5, 5]") [five (s + 1); five (s + 4)].

(** [{ a: 5, b: someFunctionCall() }] *)
Definition unsafeObject (s : nat) : Node :=
  ObjectLiteralExpression (at_ s "{ a: 5, b: someFunctionCall() }")
    [PropertyAssignment (at_ (s + 2) "a: 5") (identifier (s + 2) "a")
       (five (s + 5));
     PropertyAssignment (at_ (s + 8) "b: someFunctionCall()")
       (identifier (s + 8) "b") (someFunctionCall (s + 11))].

(** [describe(() => { var x = someFunctionCall(); });] *)
Definition describeUnsafe : Node :=
  blockCall 0 "describe" (varStatement 17 (someFunctionCall 25)).

(** [it(() => { var x = someFunctionCall(); });] *)
Definition hookUnsafe (s : nat) : Node :=
  blockCall s "it" (varStatement (s + 11) (someFunctionCall (s + 19))).

(** [describe(() => { it(() => { var x = someFunctionCall(); }); });] *)
Definition describeHook : Node := blockCall 0 "describe" (hookUnsafe 17).

(** [describe(() => { describe(() => { var x = 5; }); var x = someFunctionCall(); });] *)
Definition innerSafe : Node := blockCall 17 "describe" (varStatement 34 (five 42)).

Definition trailingUnsafe : Node := varStatement 49 (someFunctionCall 57).

Definition nestedDescribe : Node :=
  let body := (getText innerSafe ++ " " ++ getText trailingUnsafe)%string in
  let t := ("describe(() => { " ++ body ++ " })")%string in
  ExpressionStatement (at_ 0 (t ++ ";")%string)
    (CallExpression (at_ 0 t) (identifier 0 "describe") []
       [ArrowFunction (at_ 9 ("() => { " ++ body ++ " }")%string)
          [OtherNode Block (at_ 15 ("{ " ++ body ++ " }")%string)
             [innerSafe; trailingUnsafe]]]).

(** The pattern [^someFunctionCall\(\)$], compiled. *)
Definition someFunctionCallPattern : LiteralPattern :=
  {| fromStart := true; toEnd := true; literal := "someFunctionCall()" |}.

Definition ignoring : W :=
  {| isInDescribe := true; ignoreRegex := Some someFunctionCallPattern;
     failures := [] |}.

Definition exampleFile : SourceFile :=
  {| fileName := "example.test.ts"; statements := [describeUnsafe] |}.

(** [var x = someFunctionCall();] as a statement of the file. *)
Definition topLevelUnsafe : Node := varStatement 0 (someFunctionCall 8).

(** A file of one statement that is no mocha test. *)
Definition plainFile : SourceFile :=
  {| fileName := "plain.ts"; statements := [topLevelUnsafe] |}.

(** Options with two ignore strings. *)
Definition twoIgnores : list OptionValue :=
  [OptObject (Some "moment"); OptScalar;
   OptObject (Some "^someFunctionCall\(\)$"); OptObject None].

(** The call held by an expression statement. *)
Definition callIn (statement : Node) : Node :=
  match statement with
  | ExpressionStatement _ call => call
  | _ => statement
  end.

End MochaNoSideEffectCode.

(** * Properties *)

(** ** Failure lists *)

Module LintFacts.
Import Lint.

Lemma addFailure_length (failures : list RuleFailure) (f : RuleFailure) :
  List.length (addFailure failures f) = S (List.length failures).
Proof. unfold addFailure. rewrite length_app. simpl. lia. Qed.

Lemma addFailure_neq (failures : list RuleFailure) (f : RuleFailure) :
  addFailure failures f <> failures.
Proof.
  intro H. apply (f_equal (@List.length _)) in H.
  rewrite addFailure_length in H. lia.
Qed.

End LintFacts.

(** ** The no-stateless-class rule *)

Module NoStatelessClassFacts.
Import Lint NoStatelessClass.

Lemma SyntaxKind_eqb_eq (a b : SyntaxKind) : SyntaxKind_eqb a b = true <-> a = b.
Proof. destruct a, b; simpl; split; intro H; try reflexivity; discriminate. Qed.

Lemma SyntaxKind_eqb_neq (a b : SyntaxKind) : SyntaxKind_eqb a b = false <-> a <> b.
Proof.
  split.
  - intros H E. apply SyntaxKind_eqb_eq in E. congruence.
  - intro H. destruct (SyntaxKind_eqb a b) eqn:E; [|reflexivity].
    apply SyntaxKind_eqb_eq in E. contradiction.
Qed.

Section Facts.

Variable isStatic : ClassElement -> bool.
Variable superVisit : Walker -> ClassDeclaration -> Walker.

Local Abbreviation isClassStateful := (isClassStateful isStatic).
Local Abbreviation visitClassDeclaration := (visitClassDeclaration isStatic superVisit).
Local Abbreviation constructorOrStatic := (constructorOrStatic isStatic).

(** The test on the heritage clauses, as a proposition. *)
Lemma extends_test_true (node : ClassDeclaration) :
  exists_ (heritageClauses node)
    (fun clause => SyntaxKind_eqb (token clause) ExtendsKeyword) = true
  <-> hasExtendsClause node.
Proof.
  unfold exists_, hasExtendsClause. destruct (heritageClauses node) as [l|].
  - rewrite existsb_exists. split.
    + intros [c [Hin Hc]]. exists l, c. apply SyntaxKind_eqb_eq in Hc. auto.
    + intros [l' [c [Hl [Hin Hc]]]]. injection Hl as <-. exists c.
      split; [assumption|]. apply SyntaxKind_eqb_eq. assumption.
  - split; [discriminate|]. intros [l [c [Hl _]]]. discriminate.
Qed.

Lemma extends_test_false (node : ClassDeclaration) :
  noHeritage node \/ onlyOtherClauses node ->
  exists_ (heritageClauses node)
    (fun clause => SyntaxKind_eqb (token clause) ExtendsKeyword) = false.
Proof.
  intros H. destruct (exists_ _ _) eqn:E; [|reflexivity].
  apply extends_test_true in E. destruct E as [l [c [Hl [Hin Hc]]]].
  destruct H as [[H|H]|[l' [H Hall]]]; rewrite H in Hl; try discriminate.
  - injection Hl as <-. destruct Hin.
  - injection Hl as <-. rewrite Forall_forall in Hall.
    exfalso. exact (Hall c Hin Hc).
Qed.

(** The test on one member: it is neither a constructor nor static. *)
Lemma member_test_false (m : ClassElement) :
  (if SyntaxKind_eqb (kind m) Constructor then false
   else if isStatic m then false else true) = false
  <-> constructorOrStatic m.
Proof.
  unfold NoStatelessClass.constructorOrStatic.
  destruct (SyntaxKind_eqb (kind m) Constructor) eqn:E.
  - apply SyntaxKind_eqb_eq in E. tauto.
  - apply SyntaxKind_eqb_neq in E. destruct (isStatic m); split; intro H;
      try reflexivity; try discriminate; auto.
    destruct H as [H|H]; [contradiction|discriminate].
Qed.

Lemma isClassStateful_extends (node : ClassDeclaration) :
  hasExtendsClause node -> isClassStateful node = true.
Proof.
  intro H. apply extends_test_true in H.
  unfold NoStatelessClass.isClassStateful. rewrite H. reflexivity.
Qed.

Lemma isClassStateful_no_extends (node : ClassDeclaration) :
  noHeritage node \/ onlyOtherClauses node ->
  isClassStateful node = false <-> Forall constructorOrStatic (members node).
Proof.
  intro H. apply extends_test_false in H.
  unfold NoStatelessClass.isClassStateful. rewrite H.
  assert (Hl : forall l : list ClassElement,
             existsb (fun classElement =>
                        if SyntaxKind_eqb (kind classElement) Constructor then false
                        else if isStatic classElement then false else true) l = false
             <-> Forall constructorOrStatic l).
  { induction l as [|a l IH]; simpl.
    - split; [constructor | reflexivity].
    - rewrite orb_false_iff, IH, member_test_false. split.
      + intros [Ha Hl]. constructor; assumption.
      + intro HF. inversion HF; subst. auto. }
  destruct (members node) as [|m ms] eqn:Em.
  - simpl. split; [constructor | reflexivity].
  - cbn [List.length Nat.eqb exists_]. apply Hl.
Qed.

Lemma visitClassDeclaration_eq (w : Walker) (node : ClassDeclaration) :
  visitClassDeclaration w node =
  superVisit (if isClassStateful node then w else addFailure w (failureOf node)) node.
Proof.
  unfold NoStatelessClass.visitClassDeclaration, failureOf.
  destruct (isClassStateful node); reflexivity.
Qed.

(** C1, as the code has it: a class that declares zero members is reported
    unless it has an [extends] clause; with an [extends] clause the rule
    reports nothing for it. *)
Theorem empty_class_reported_unless_extends
  (node : ClassDeclaration) (w : Walker) :
  members node = [] ->
  (hasExtendsClause node ->
   visitClassDeclaration w node = superVisit w node) /\
  (~ hasExtendsClause node ->
   visitClassDeclaration w node =
   superVisit (addFailure w (failureOf node)) node).
Proof.
  intro Hm. rewrite visitClassDeclaration_eq. split; intro H.
  - rewrite (isClassStateful_extends node H). reflexivity.
  - assert (E : isClassStateful node = false).
    { unfold NoStatelessClass.isClassStateful.
      destruct (exists_ (heritageClauses node) _) eqn:Ex.
      - apply extends_test_true in Ex. contradiction.
      - rewrite Hm. reflexivity. }
    rewrite E. reflexivity.
Qed.

(** C2: a class with no heritage clause and at least one member is
    reported exactly when every member is a constructor or is declared
    static; the visit reports [failureOf node] in that case and nothing
    otherwise; and putting one member that is neither anywhere among the
    members makes the rule report nothing. *)
Theorem reported_iff_all_constructor_or_static (node : ClassDeclaration) :
  noHeritage node -> members node <> [] ->
  (isClassStateful node = false <-> Forall constructorOrStatic (members node)) /\
  (forall w,
     visitClassDeclaration w node =
     superVisit (if isClassStateful node then w
                 else addFailure w (failureOf node)) node) /\
  (forall w pre post m,
     members node = pre ++ post ->
     kind m <> Constructor -> isStatic m = false ->
     visitClassDeclaration w (withMembers node (pre ++ m :: post)) =
     superVisit w (withMembers node (pre ++ m :: post))).
Proof.
  intros Hh Hm. split; [|split].
  - apply isClassStateful_no_extends. left. exact Hh.
  - intro w. apply visitClassDeclaration_eq.
  - intros w pre post m _ Hk Hs. rewrite visitClassDeclaration_eq.
    destruct (isClassStateful (withMembers node (pre ++ m :: post))) eqn:E;
      [reflexivity|].
    apply isClassStateful_no_extends in E; [|left; exact Hh].
    simpl in E. rewrite Forall_forall in E.
    destruct (E m) as [Hc|Hc].
    + apply in_or_app. right. left. reflexivity.
    + contradiction.
    + congruence.
Qed.

(** C3, as the code has it: a class with an [extends] clause is never
    reported, whatever its members; heritage clauses that are all of
    another kind ([implements]) change nothing: the class is judged as
    if it had no heritage clause. *)
Theorem extends_clause_exempts (node : ClassDeclaration) :
  (hasExtendsClause node ->
   forall w ms,
     visitClassDeclaration w (withMembers node ms) =
     superVisit w (withMembers node ms)) /\
  (onlyOtherClauses node ->
   isClassStateful node = isClassStateful (withHeritage node None)).
Proof.
  split.
  - intros H w ms. rewrite visitClassDeclaration_eq.
    rewrite isClassStateful_extends; [reflexivity|].
    destruct H as [l [c H]]. exists l, c. exact H.
  - intro H. unfold NoStatelessClass.isClassStateful.
    rewrite (extends_test_false node (or_intror H)). reflexivity.
Qed.

(** C10: when the rule reports a class, the failure starts at the class
    node's start, has the class node's width, and its message is
    [FAILURE_STRING] followed by ["<unknown>"] for a class without a name
    and by the name's text otherwise. *)
Theorem reported_failure_message (node : ClassDeclaration) (w : Walker) :
  isClassStateful node = false ->
  exists f,
    visitClassDeclaration w node = superVisit (addFailure w f) node /\
    failureStart f = getStart node /\
    failureWidth f = getWidth node /\
    (name node = None ->
     failureMessage f = (FAILURE_STRING ++ "<unknown>")%string) /\
    (forall n, name node = Some n ->
     failureMessage f = (FAILURE_STRING ++ text n)%string).
Proof.
  intro H. exists (failureOf node). rewrite visitClassDeclaration_eq, H.
  unfold failureOf, className. simpl.
  repeat split; try reflexivity.
  - intro Hn. rewrite Hn. reflexivity.
  - intros n Hn. rewrite Hn. reflexivity.
Qed.

Lemma existsb_Permutation {A : Type} (f : A -> bool) (l l' : list A) :
  Permutation l l' -> existsb f l = existsb f l'.
Proof.
  induction 1 as [|x l l' _ IH|x y l|l l' l'' _ IH1 _ IH2]; simpl.
  - reflexivity.
  - rewrite IH. reflexivity.
  - destruct (f x), (f y); reflexivity.
  - rewrite IH1. exact IH2.
Qed.

(** X13: the order in which a class lists its members and its heritage
    clauses does not matter, and neither do its name and position: two
    classes whose members are the same up to order, and whose heritage
    clauses are the same up to order, are judged alike. *)
Theorem isClassStateful_order_irrelevant (a b : ClassDeclaration) :
  Permutation (members a) (members b) ->
  (heritageClauses a = None /\ heritageClauses b = None) \/
  (exists la lb,
     heritageClauses a = Some la /\ heritageClauses b = Some lb /\
     Permutation la lb) ->
  isClassStateful a = isClassStateful b.
Proof.
  intros Hm Hh. unfold NoStatelessClass.isClassStateful.
  assert (E : exists_ (heritageClauses a)
                (fun clause => SyntaxKind_eqb (token clause) ExtendsKeyword)
              = exists_ (heritageClauses b)
                  (fun clause => SyntaxKind_eqb (token clause) ExtendsKeyword)).
  { destruct Hh as [[-> ->]|[la [lb [-> [-> Hp]]]]]; [reflexivity|].
    apply existsb_Permutation. exact Hp. }
  rewrite E, (Permutation_length Hm). unfold exists_ at 2 4.
  rewrite (existsb_Permutation _ _ _ Hm). reflexivity.
Qed.

End Facts.

(** The rule run on [class Empty {}]: the class declares no member and
    is reported. *)
Lemma empty_class_is_reported :
  members emptyClass = [] /\
  failures (visitClassDeclaration hasStaticModifier noNestedClasses
              freshWalker emptyClass) =
  [createFailure 0 14
     "A stateless class was found. This indicates a failure in the object model: Empty"].
Proof. split; reflexivity. Qed.

Lemma empty_class_reported_unless_extends_witness :
  members emptyDerivedClass = [] /\
  ((hasExtendsClause emptyDerivedClass ->
    visitClassDeclaration hasStaticModifier noNestedClasses freshWalker
      emptyDerivedClass = freshWalker) /\
   (~ hasExtendsClause emptyDerivedClass ->
    visitClassDeclaration hasStaticModifier noNestedClasses freshWalker
      emptyDerivedClass =
    addFailure freshWalker (failureOf emptyDerivedClass))).
Proof.
  split; [reflexivity|].
  apply (empty_class_reported_unless_extends hasStaticModifier noNestedClasses
           emptyDerivedClass freshWalker).
  reflexivity.
Defined.

Lemma reported_iff_all_constructor_or_static_witness :
  noHeritage staticsOnlyClass /\ members staticsOnlyClass <> [] /\
  (isClassStateful hasStaticModifier staticsOnlyClass = false <->
   Forall (constructorOrStatic hasStaticModifier) (members staticsOnlyClass)).
Proof.
  assert (Hh : noHeritage staticsOnlyClass) by (left; reflexivity).
  assert (Hm : members staticsOnlyClass <> []) by (simpl; discriminate).
  split; [exact Hh | split; [exact Hm|]].
  exact (proj1 (reported_iff_all_constructor_or_static hasStaticModifier
                  noNestedClasses staticsOnlyClass Hh Hm)).
Defined.

(** The rule run on a class that only [implements] an interface and has
    a constructor and static members: it has a heritage clause and is
    reported all the same. *)
Lemma implementing_class_is_reported :
  heritageClauses implementingClass =
    Some [ {| token := ImplementsKeyword; types := ["Service"] |} ] /\
  failures (visitClassDeclaration hasStaticModifier noNestedClasses
              freshWalker implementingClass) =
  [createFailure 20 120
     "A stateless class was found. This indicates a failure in the object model: Helpers"].
Proof. split; reflexivity. Qed.

Lemma extends_clause_exempts_witness :
  hasExtendsClause derivedClass /\
  visitClassDeclaration hasStaticModifier noNestedClasses freshWalker
    (withMembers derivedClass (members derivedClass)) = freshWalker.
Proof.
  assert (H : hasExtendsClause derivedClass).
  { exists [ {| token := ExtendsKeyword; types := ["Base"] |} ],
      {| token := ExtendsKeyword; types := ["Base"] |}.
    repeat split. left. reflexivity. }
  split; [exact H|].
  exact (proj1 (extends_clause_exempts hasStaticModifier noNestedClasses
                  derivedClass) H freshWalker (members derivedClass)).
Defined.

Lemma reported_failure_message_witness :
  isClassStateful hasStaticModifier anonymousClass = false /\
  exists f,
    visitClassDeclaration hasStaticModifier noNestedClasses freshWalker
      anonymousClass = noNestedClasses (addFailure freshWalker f) anonymousClass /\
    failureStart f = 15 /\ failureWidth f = 25 /\
    (name anonymousClass = None ->
     failureMessage f = (FAILURE_STRING ++ "<unknown>")%string) /\
    (forall n, name anonymousClass = Some n ->
     failureMessage f = (FAILURE_STRING ++ text n)%string).
Proof.
  split; [reflexivity|].
  apply (reported_failure_message hasStaticModifier noNestedClasses
           anonymousClass freshWalker).
  reflexivity.
Defined.

Lemma isClassStateful_order_irrelevant_witness :
  Permutation (members staticsOnlyClass) (members reorderedClass) /\
  isClassStateful hasStaticModifier staticsOnlyClass
  = isClassStateful hasStaticModifier reorderedClass.
Proof.
  assert (Hp : Permutation (members staticsOnlyClass) (members reorderedClass)).
  { simpl. eapply perm_trans; [apply perm_skip, perm_swap | apply perm_swap]. }
  split; [exact Hp|].
  apply (isClassStateful_order_irrelevant hasStaticModifier staticsOnlyClass
           reorderedClass Hp).
  left. split; reflexivity.
Defined.

End NoStatelessClassFacts.

(** ** The mocha-no-side-effect-code rule *)

Module MochaFacts.
Import Lint MochaNoSideEffectCode.

(** *** Trees *)

Lemma In_heights (c : Node) (l : list Node) :
  In c l ->
  height c <=
  (fix heights (l : list Node) : nat :=
     match l with
     | [] => 0
     | c :: l' => Nat.max (height c) (heights l')
     end) l.
Proof.
  induction l as [|a l IH]; simpl; [tauto|].
  intros [->|H]; [lia|]. specialize (IH H). lia.
Qed.

Lemma child_height (c n : Node) : Child c n -> height c < height n.
Proof.
  unfold Child. destruct n; cbn [childrenOf height]; intro H;
    try (apply In_heights in H; lia);
    try (destruct H as [<-|[<-|[]]]; lia);
    try (destruct H as [<-|[]]; lia);
    try (destruct H as [<-|H]; [lia|]; apply in_app_or in H;
         destruct H as [H|H]; apply In_heights in H; lia);
    try (destruct H; fail).
  destruct H as [<-|H]; [lia|]. apply in_app_or in H.
  destruct type as [t|], initializer as [i|]; simpl in H;
      destruct H as [H|H]; try tauto;
      repeat match goal with
             | H : _ \/ _ |- _ => destruct H as [H|H]
             | H : False |- _ => destruct H
             end; subst; lia.
Qed.

Lemma proper_height (c n : Node) :
  ProperSubexpression c n -> height c < height n.
Proof.
  induction 1 as [c n H|c m n _ IH H].
  - apply child_height. exact H.
  - apply child_height in H. lia.
Qed.

(** Induction on trees by height, and by children. *)
Lemma Node_height_induction (P : Node -> Prop) :
  (forall n, (forall c, height c < height n -> P c) -> P n) -> forall n, P n.
Proof.
  intros step n.
  assert (H : forall k m, height m < k -> P m).
  { induction k as [|k IH]; intros m Hm; [lia|].
    apply step. intros c Hc. apply IH. lia. }
  apply (H (S (height n))). lia.
Qed.

Lemma grandchild_height (c m n : Node) :
  Child c m -> Child m n -> height c < height n.
Proof. intros H1 H2. apply child_height in H1, H2. lia. Qed.

Lemma Node_induction (P : Node -> Prop) :
  (forall n, (forall c, Child c n -> P c) -> P n) -> forall n, P n.
Proof.
  intro step. apply Node_height_induction. intros n IH.
  apply step. intros c Hc. apply IH. apply child_height. exact Hc.
Qed.

Section Facts.

Variable RegExp : Type.
Variable RegExp_new : string -> option RegExp.
Variable RegExp_test : RegExp -> string -> bool.
Variable isConstantExpression : Node -> bool.
Variable getFunctionName : Node -> option string.
Variable getFunctionTarget : Node -> option string.
Variable trimTo : string -> nat -> string.
Variable isMochaTest : SourceFile -> bool.
Variable isStatementDescribeCall : Node -> bool.

Local Abbreviation Walker := (Walker RegExp).
Local Abbreviation failureAt := (failureAt trimTo).
Local Abbreviation validateRemaining :=
  (validateRemaining RegExp RegExp_test isConstantExpression getFunctionName
     getFunctionTarget trimTo).
Local Abbreviation validateNode :=
  (validateNode RegExp RegExp_test isConstantExpression getFunctionName
     getFunctionTarget trimTo).
Local Abbreviation validateExpression :=
  (validateExpression RegExp RegExp_test isConstantExpression getFunctionName
     getFunctionTarget trimTo).
Local Abbreviation validateExpressionBody :=
  (validateExpressionBody RegExp RegExp_test isConstantExpression
     getFunctionName getFunctionTarget trimTo).
Local Abbreviation validateExpressionFuel :=
  (validateExpressionFuel RegExp RegExp_test isConstantExpression
     getFunctionName getFunctionTarget trimTo).
Local Abbreviation visitVariableDeclaration :=
  (visitVariableDeclaration RegExp RegExp_test isConstantExpression
     getFunctionName getFunctionTarget trimTo).
Local Abbreviation visitCallExpressionWith :=
  (visitCallExpressionWith RegExp RegExp_test isConstantExpression
     getFunctionName getFunctionTarget trimTo).
Local Abbreviation visitNode :=
  (visitNode RegExp RegExp_test isConstantExpression getFunctionName
     getFunctionTarget trimTo).
Local Abbreviation walkChildren :=
  (walkChildren RegExp RegExp_test isConstantExpression getFunctionName
     getFunctionTarget trimTo).
Local Abbreviation visitCallExpression :=
  (visitCallExpression RegExp RegExp_test isConstantExpression getFunctionName
     getFunctionTarget trimTo).
Local Abbreviation visitTrace :=
  (visitTrace RegExp RegExp_test isConstantExpression getFunctionName
     getFunctionTarget trimTo).
Local Abbreviation plus := (plus RegExp).
Local Abbreviation Grows := (Grows RegExp trimTo).
Local Abbreviation Safe :=
  (Safe RegExp RegExp_test isConstantExpression getFunctionName
     getFunctionTarget trimTo).
Local Abbreviation traceChildren :=
  (traceChildren RegExp RegExp_test isConstantExpression getFunctionName
     getFunctionTarget trimTo).
Local Abbreviation accepted := (accepted RegExp RegExp_new).
Local Abbreviation builtinDecision :=
  (builtinDecision getFunctionName getFunctionTarget).
Local Abbreviation ignored := (ignored RegExp RegExp_test).
Local Abbreviation allActive := (allActive RegExp).
Local Abbreviation reportedIn := (reportedIn trimTo).
Local Abbreviation anchored := (anchored RegExp trimTo).
Local Abbreviation describeFree := (describeFree getFunctionName).
Local Abbreviation visitSourceFile :=
  (visitSourceFile RegExp RegExp_test isConstantExpression getFunctionName
     getFunctionTarget trimTo isMochaTest isStatementDescribeCall).
Local Abbreviation isDescribeCall := (isDescribeCall getFunctionName).
Local Abbreviation isLifecycleCall := (isLifecycleCall getFunctionName).
Local Abbreviation parseOptions := (parseOptions RegExp RegExp_new).
Local Abbreviation newWalker := (newWalker RegExp RegExp_new).
Local Abbreviation apply_ :=
  (apply RegExp RegExp_new RegExp_test isConstantExpression getFunctionName
     getFunctionTarget trimTo isMochaTest isStatementDescribeCall).

(** *** The equations of [validateExpression] *)

Lemma validateNode_array (w : Walker) i elements p :
  validateNode w (ArrayLiteralExpression i elements) p =
  fold_left (fun w e => validateNode w e p) elements w.
Proof.
  simpl. revert w. induction elements as [|e l IH]; intro w; simpl;
    [reflexivity | apply IH].
Qed.

Lemma validateNode_object (w : Walker) i properties p :
  validateNode w (ObjectLiteralExpression i properties) p =
  fold_left
    (fun w element =>
       match element with
       | PropertyAssignment _ _ initializer' => validateNode w initializer' p
       | _ => w
       end) properties w.
Proof.
  simpl. revert w. induction properties as [|e l IH]; intro w; simpl;
    [reflexivity | apply IH].
Qed.

Lemma validateNode_assertion (w : Walker) i t e p :
  validateNode w (TypeAssertionExpression i t e) p = validateNode w e p.
Proof. reflexivity. Qed.

Lemma plus_nil (w : Walker) : plus w [] = w.
Proof. destruct w. unfold MochaNoSideEffectCode.plus. simpl. rewrite app_nil_r. reflexivity. Qed.

Lemma plus_plus (w : Walker) a b : plus (plus w a) b = plus w (a ++ b).
Proof. unfold MochaNoSideEffectCode.plus. simpl. rewrite app_assoc. reflexivity. Qed.

Lemma plus_eq (w : Walker) extra : plus w extra = w -> extra = [].
Proof.
  intro H. apply (f_equal (failures _)) in H. simpl in H.
  apply (f_equal (@List.length _)) in H. rewrite length_app in H.
  destruct extra; [reflexivity | simpl in H; lia].
Qed.

Lemma addFailure_plus (w : Walker) f : addFailure _ w f = plus w [f].
Proof. reflexivity. Qed.

Lemma Grows_refl p w : Grows p w w.
Proof. exists []. rewrite plus_nil. split; [reflexivity | constructor]. Qed.

Lemma Grows_trans p w1 w2 w3 : Grows p w1 w2 -> Grows p w2 w3 -> Grows p w1 w3.
Proof.
  intros [a [-> Ha]] [b [-> Hb]]. exists (a ++ b). rewrite plus_plus.
  split; [reflexivity | apply Forall_app; auto].
Qed.

Lemma Grows_back p w w' : Grows p w w' -> Grows p w' w -> w' = w.
Proof.
  intros [a [-> Ha]] [b [Hb _]]. rewrite plus_plus in Hb.
  symmetry in Hb. apply plus_eq in Hb. apply app_eq_nil in Hb.
  destruct Hb as [-> _]. apply plus_nil.
Qed.

Lemma validateRemaining_Grows w e p : Grows p w (validateRemaining w e p).
Proof.
  unfold MochaNoSideEffectCode.validateRemaining.
  repeat match goal with
         | |- Grows _ _ (if ?b then _ else _) => destruct b
         end; try apply Grows_refl.
  exists [failureAt p]. split; [reflexivity | repeat constructor].
Qed.

Lemma fold_Grows {A : Type} p (f : Walker -> A -> Walker) (l : list A) :
  (forall a, In a l -> forall w, Grows p w (f w a)) ->
  forall w, Grows p w (fold_left f l w).
Proof.
  induction l as [|a l IH]; intros H w; simpl; [apply Grows_refl|].
  apply Grows_trans with (f w a).
  - apply H. left. reflexivity.
  - apply IH. intros b Hb. apply H. right. exact Hb.
Qed.

Lemma validateNode_Grows (e : Node) :
  forall (w : Walker) p, Grows p w (validateNode w e p).
Proof.
  induction e as [e IH] using Node_height_induction. intros w p.
  destruct e as [k i| | |i elements|i t e| |i properties| | | | | | | | | |];
    try apply Grows_refl;
    try (apply (validateRemaining_Grows w _ p)).
  - destruct k; try apply Grows_refl;
      apply (validateRemaining_Grows w _ p).
  - rewrite validateNode_array. apply fold_Grows.
    intros a Ha w'. apply IH. apply child_height. exact Ha.
  - rewrite validateNode_assertion. apply IH. apply child_height.
    right. left. reflexivity.
  - rewrite validateNode_object. apply fold_Grows.
    intros a Ha w'.
    destruct a; try apply Grows_refl.
    apply IH. eapply grandchild_height; [|exact Ha].
    right. left. reflexivity.
Qed.

Lemma fold_unchanged {A : Type} p (f : Walker -> A -> Walker) (l : list A) :
  (forall a, In a l -> forall w, Grows p w (f w a)) ->
  forall w, fold_left f l w = w <-> Forall (fun a => f w a = w) l.
Proof.
  induction l as [|a l IH]; intros H w; simpl.
  - split; [constructor | reflexivity].
  - assert (Ha : Grows p w (f w a)) by (apply H; left; reflexivity).
    assert (Hl : forall b, In b l -> forall w, Grows p w (f w b))
      by (intros b Hb; apply H; right; exact Hb).
    split.
    + intro E.
      assert (Ea : f w a = w).
      { apply (Grows_back p); [exact Ha|]. rewrite <- E at 2.
        apply fold_Grows. exact Hl. }
      constructor; [exact Ea|]. rewrite Ea in E. apply IH; assumption.
    + intro HF. inversion HF as [|? ? Ea HF']; subst.
      rewrite Ea. apply IH; assumption.
Qed.

Lemma validateExpression_Grows (w : Walker) e p :
  Grows p w (validateExpression w (Some e) p).
Proof. apply validateNode_Grows. Qed.

(** A validation that changes the walker has reported the failure of
    the parent node. *)
Lemma unsafe_reports (w : Walker) e p :
  ~ Safe w e p ->
  In (failureAt p) (failures _ (validateExpression w (Some e) p)) /\
  List.length (failures _ w) <
  List.length (failures _ (validateExpression w (Some e) p)).
Proof.
  intro H. destruct (validateExpression_Grows w e p) as [extra [E HF]].
  unfold MochaNoSideEffectCode.Safe in H. rewrite E in *.
  destruct extra as [|f extra].
  - exfalso. apply H. apply plus_nil.
  - inversion HF; subst. simpl. rewrite length_app. simpl. split; [|lia].
    apply in_or_app. right. left. reflexivity.
Qed.

Lemma array_safe_iff (w : Walker) i elements p :
  Safe w (ArrayLiteralExpression i elements) p <->
  Forall (fun e => Safe w e p) elements.
Proof.
  unfold MochaNoSideEffectCode.Safe, MochaNoSideEffectCode.validateExpression.
  rewrite validateNode_array.
  apply (fold_unchanged p (fun w e => validateNode w e p)).
  intros a _ w'. apply validateNode_Grows.
Qed.

Lemma object_safe_iff (w : Walker) i properties p :
  Safe w (ObjectLiteralExpression i properties) p <->
  Forall (fun element =>
            forall i' n init,
              element = PropertyAssignment i' n init -> Safe w init p)
    properties.
Proof.
  unfold MochaNoSideEffectCode.Safe, MochaNoSideEffectCode.validateExpression.
  rewrite validateNode_object.
  rewrite (fold_unchanged p).
  - split; intro H; (eapply Forall_impl; [|exact H]); cbv beta.
    + intros a Ha i' n init ->. exact Ha.
    + intros a Ha. destruct a; try reflexivity. eapply Ha. reflexivity.
  - intros a _ w'. destruct a; try apply Grows_refl. apply validateNode_Grows.
Qed.

(** C4: an array literal is safe exactly when every element is, an
    object literal exactly when the initializer of every property
    assignment is; a declaration validated inside a describe call whose
    initializer is such a literal is left without a failure when all
    the parts are safe, and gets the failure of the declaration when
    one part is not. *)
Theorem literal_safe_iff_parts_safe (w : Walker) i elements properties :
  (forall p,
     Safe w (ArrayLiteralExpression i elements) p <->
     Forall (fun e => Safe w e p) elements) /\
  (forall p,
     Safe w (ObjectLiteralExpression i properties) p <->
     Forall (fun element =>
               forall i' n init,
                 element = PropertyAssignment i' n init -> Safe w init p)
       properties) /\
  (forall di dn dt,
     isInDescribe _ w = true ->
     let declaration :=
       VariableDeclaration di dn dt (Some (ArrayLiteralExpression i elements)) in
     (Forall (fun e => Safe w e declaration) elements ->
      visitVariableDeclaration w declaration = w) /\
     (Exists (fun e => ~ Safe w e declaration) elements ->
      In (failureAt declaration)
        (failures _ (visitVariableDeclaration w declaration)))) /\
  (forall di dn dt,
     isInDescribe _ w = true ->
     let declaration :=
       VariableDeclaration di dn dt
         (Some (ObjectLiteralExpression i properties)) in
     (Forall (fun element =>
                forall i' n init,
                  element = PropertyAssignment i' n init ->
                  Safe w init declaration) properties ->
      visitVariableDeclaration w declaration = w) /\
     (Exists (fun element =>
                exists i' n init,
                  element = PropertyAssignment i' n init /\
                  ~ Safe w init declaration) properties ->
      In (failureAt declaration)
        (failures _ (visitVariableDeclaration w declaration)))).
Proof.
  split; [intro p; apply array_safe_iff|].
  split; [intro p; apply object_safe_iff|].
  split; intros di dn dt Hd declaration;
    unfold MochaNoSideEffectCode.visitVariableDeclaration;
    subst declaration; cbv beta iota; rewrite Hd; cbn [Bool.eqb]; split.
  - intro H. apply array_safe_iff. exact H.
  - intro H. apply unsafe_reports. rewrite array_safe_iff.
    intro HF. rewrite Forall_forall in HF. apply Exists_exists in H.
    destruct H as [e [Hin Hn]]. apply Hn. apply HF. exact Hin.
  - intro H. apply object_safe_iff. exact H.
  - intro H. apply unsafe_reports. rewrite object_safe_iff.
    intro HF. rewrite Forall_forall in HF. apply Exists_exists in H.
    destruct H as [e [Hin [i' [n [init [-> Hn]]]]]]. apply Hn.
    eapply HF; [exact Hin | reflexivity].
Qed.

(** *** The equations of the walk *)

Lemma walkChildren_app (w : Walker) l1 l2 :
  walkChildren w (l1 ++ l2) = walkChildren (walkChildren w l1) l2.
Proof. apply fold_left_app. Qed.

Lemma walk_fix (l : list Node) (w : Walker) :
  (fix walk (w : Walker) (l : list Node) : Walker :=
     match l with
     | [] => w
     | child :: l' => walk (visitNode w child) l'
     end) w l = walkChildren w l.
Proof.
  revert w. induction l as [|c l IH]; intro w; simpl; [reflexivity | apply IH].
Qed.

Lemma visitNode_default (w : Walker) (node : Node) :
  hasHandler node = false ->
  visitNode w node = walkChildren w (childrenOf node).
Proof.
  destruct node; simpl; intro H; try discriminate; try reflexivity;
    try apply walk_fix.
  rewrite !walk_fix.
  change (walkChildren w (node :: typeArguments ++ arguments))
    with (walkChildren (visitNode w node) (typeArguments ++ arguments)).
  rewrite walkChildren_app. reflexivity.
Qed.

Lemma visitNode_call (w : Walker) i expression typeArguments arguments :
  visitNode w (CallExpression i expression typeArguments arguments) =
  visitCallExpression w (CallExpression i expression typeArguments arguments).
Proof.
  simpl. unfold MochaNoSideEffectCode.visitCallExpressionWith.
  rewrite !walk_fix.
  change (walkChildren (setIsInDescribe RegExp w true)
            (expression :: typeArguments ++ arguments))
    with (walkChildren (visitNode (setIsInDescribe RegExp w true) expression)
            (typeArguments ++ arguments)).
  rewrite walkChildren_app. reflexivity.
Qed.

Lemma trace_fix (l : list Node) (w : Walker) :
  (fix trace (w : Walker) (l : list Node) : list (Walker * Node) :=
     match l with
     | [] => []
     | child :: l' => visitTrace w child ++ trace (visitNode w child) l'
     end) w l = traceChildren w l.
Proof.
  revert w. induction l as [|c l IH]; intro w; simpl;
    [reflexivity | rewrite IH; reflexivity].
Qed.

Lemma traceChildren_app (w : Walker) l1 l2 :
  traceChildren w (l1 ++ l2) =
  traceChildren w l1 ++ traceChildren (walkChildren w l1) l2.
Proof.
  revert w. induction l1 as [|c l IH]; intro w; simpl; [reflexivity|].
  rewrite IH, app_assoc. reflexivity.
Qed.

Lemma visitTrace_default (w : Walker) (node : Node) :
  hasHandler node = false ->
  visitTrace w node = (w, node) :: traceChildren w (childrenOf node).
Proof.
  destruct node; simpl; intro H; try discriminate; try reflexivity;
    rewrite ?trace_fix, ?app_nil_r; try reflexivity.
  rewrite traceChildren_app. reflexivity.
Qed.

Lemma visitTrace_call (w : Walker) i expression typeArguments arguments :
  let node := CallExpression i expression typeArguments arguments in
  visitTrace w node =
  (w, node) ::
  if isDescribeCall node expression
  then traceChildren (setIsInDescribe _ w true) (childrenOf node)
  else [].
Proof.
  simpl. destruct (isDescribeCall _ _); [|reflexivity].
  rewrite !trace_fix, traceChildren_app. reflexivity.
Qed.

(** *** The flag *)

Lemma Grows_flag p (w w' : Walker) :
  Grows p w w' -> isInDescribe _ w' = isInDescribe _ w.
Proof. intros [extra [-> _]]. reflexivity. Qed.

Lemma walkChildren_flag (l : list Node) :
  (forall c, In c l ->
   forall w : Walker, isInDescribe _ (visitNode w c) = isInDescribe _ w) ->
  forall w : Walker, isInDescribe _ (walkChildren w l) = isInDescribe _ w.
Proof.
  induction l as [|c l IH]; intros H w; [reflexivity|].
  change (walkChildren w (c :: l)) with (walkChildren (visitNode w c) l).
  rewrite IH.
  - apply H. left. reflexivity.
  - intros d Hd. apply H. right. exact Hd.
Qed.

(** A visit leaves the flag as it found it. *)
Lemma visitNode_flag (node : Node) :
  forall w : Walker, isInDescribe _ (visitNode w node) = isInDescribe _ w.
Proof.
  induction node as [node IH] using Node_induction. intro w.
  destruct (hasHandler node) eqn:Hh.
  - destruct node; try discriminate.
    + rewrite visitNode_call. cbn [MochaNoSideEffectCode.visitCallExpression].
      unfold MochaNoSideEffectCode.visitCallExpressionWith.
      destruct (isDescribeCall _ _).
      * destruct (isInDescribe _ w) eqn:Ew; cbn [Bool.eqb]; [|reflexivity].
        rewrite walkChildren_flag; [reflexivity|].
        intros c Hc. apply IH. exact Hc.
      * destruct (isLifecycleCall _); [reflexivity|].
        destruct (isInDescribe _ w) eqn:Ew; [|exact Ew].
        rewrite <- Ew.
        apply (Grows_flag (CallExpression info0 node typeArguments arguments)).
        apply validateNode_Grows.
    + simpl. destruct (isInDescribe _ w) eqn:Ew; cbn [Bool.eqb]; [|exact Ew].
      destruct initializer as [e|]; [|exact Ew].
      rewrite <- Ew.
      apply (Grows_flag (VariableDeclaration info0 node type (Some e))).
      apply validateNode_Grows.
    + reflexivity.
    + reflexivity.
  - rewrite (visitNode_default w node Hh). apply walkChildren_flag.
    intros c Hc. apply IH. exact Hc.
Qed.

Lemma traceChildren_active (l : list Node) :
  (forall c, In c l ->
   forall w : Walker, isInDescribe _ w = true -> allActive (visitTrace w c)) ->
  forall w : Walker, isInDescribe _ w = true -> allActive (traceChildren w l).
Proof.
  unfold MochaNoSideEffectCode.allActive.
  induction l as [|c l IH]; intros H w Hw; simpl; [constructor|].
  apply Forall_app. split.
  - apply H; [left; reflexivity | exact Hw].
  - apply IH.
    + intros d Hd. apply H. right. exact Hd.
    + rewrite visitNode_flag. exact Hw.
Qed.

(** Inside a describe call the flag is set at every visit. *)
Lemma visitTrace_active (node : Node) :
  forall w : Walker, isInDescribe _ w = true -> allActive (visitTrace w node).
Proof.
  induction node as [node IH] using Node_induction. intros w Hw.
  assert (Hc : forall w' : Walker, isInDescribe _ w' = true ->
               allActive (traceChildren w' (childrenOf node))).
  { apply traceChildren_active. exact IH. }
  destruct (hasHandler node) eqn:Hh.
  - destruct node; try discriminate.
    + rewrite visitTrace_call. constructor; [exact Hw|].
      destruct (isDescribeCall _ _); [|constructor].
      apply Hc. reflexivity.
    + simpl. repeat constructor. exact Hw.
    + simpl. repeat constructor. exact Hw.
    + simpl. repeat constructor. exact Hw.
  - rewrite (visitTrace_default w node Hh). constructor; [exact Hw|].
    apply Hc. exact Hw.
Qed.

(** *** Calls *)

Lemma lifecycle_not_describe (node : Node) :
  isLifecycleCall node = true ->
  strictEq (getFunctionName node) "describe" = false.
Proof.
  unfold MochaNoSideEffectCode.isLifecycleCall, strictEq.
  destruct (getFunctionName node) as [s|]; [|reflexivity].
  intro H. destruct (String.eqb_spec s "describe") as [->|]; [|reflexivity].
  discriminate H.
Qed.

(** C5: a call to a lifecycle hook ([it], [before], [beforeEach],
    [after], [afterEach]) is left at once: the walker is unchanged, so
    nothing inside the call is reported, and no node below the call is
    visited.  (A call whose callee reads [describe.skip] is a describe
    call to the rule whatever its name; the tree gives no such callee
    to a call named after a hook.) *)
Theorem lifecycle_call_not_traversed
  (w : Walker) i expression typeArguments arguments :
  let node := CallExpression i expression typeArguments arguments in
  isLifecycleCall node = true ->
  getText expression <> "describe.skip" ->
  visitNode w node = w /\
  visitCallExpression w node = w /\
  visitTrace w node = [(w, node)].
Proof.
  intros node Hl Ht.
  assert (Hd : isDescribeCall node expression = false).
  { unfold MochaNoSideEffectCode.isDescribeCall.
    rewrite (lifecycle_not_describe node Hl). simpl.
    apply String.eqb_neq. exact Ht. }
  assert (Hv : visitCallExpression w node = w).
  { subst node. cbn [MochaNoSideEffectCode.visitCallExpression].
    unfold MochaNoSideEffectCode.visitCallExpressionWith.
    rewrite Hd, Hl. reflexivity. }
  split; [|split].
  - subst node. rewrite visitNode_call. exact Hv.
  - exact Hv.
  - subst node. rewrite visitTrace_call. rewrite Hd. reflexivity.
Qed.

Lemma walkChildren_keeps_flag (l : list Node) (w : Walker) :
  isInDescribe _ (walkChildren w l) = isInDescribe _ w.
Proof. apply walkChildren_flag. intros c _. apply visitNode_flag. Qed.

Lemma setIsInDescribe_set (w : Walker) :
  isInDescribe _ w = true -> setIsInDescribe _ w true = w.
Proof. destruct w. simpl. intros ->. reflexivity. Qed.

(** The describe branch of [visitCallExpression]: the flag is saved and
    set, the children are walked, and the flag is put back. *)
Lemma describe_call_visit (w : Walker) i expression typeArguments arguments :
  let node := CallExpression i expression typeArguments arguments in
  isDescribeCall node expression = true ->
  visitNode w node =
  setIsInDescribe _
    (walkChildren (setIsInDescribe _ w true) (childrenOf node))
    (isInDescribe _ w).
Proof.
  intros node Hd. subst node. rewrite visitNode_call.
  cbn [MochaNoSideEffectCode.visitCallExpression].
  unfold MochaNoSideEffectCode.visitCallExpressionWith. rewrite Hd.
  destruct (isInDescribe _ w); cbn [Bool.eqb]; [|reflexivity].
  symmetry. apply setIsInDescribe_set. apply walkChildren_keeps_flag.
Qed.

(** C6: the visit of a describe call is the walk of its children from
    the walker with the flag set, followed by putting the flag back to
    what it was when the visit began: cleared if the call was the
    outermost one, still set if it was nested in another.  While the
    children are walked the flag stays set: every child is handed a
    walker with the flag set and hands on one with the flag set; below,
    a visit that begins with the flag set ends with it set, a node
    without a handler hands its walker to its children, and an inner
    describe call is walked as its children are, without clearing the
    flag when it is left.  The trace of the visit says the same: below
    the call every node is entered and left with the flag set. *)
Theorem describe_flag_nesting
  (w : Walker) i expression typeArguments arguments :
  let node := CallExpression i expression typeArguments arguments in
  isDescribeCall node expression = true ->
  visitNode w node =
    setIsInDescribe _
      (walkChildren (setIsInDescribe _ w true) (childrenOf node))
      (isInDescribe _ w) /\
  (forall pre c post,
     childrenOf node = pre ++ c :: post ->
     isInDescribe _ (walkChildren (setIsInDescribe _ w true) pre) = true /\
     isInDescribe _
       (visitNode (walkChildren (setIsInDescribe _ w true) pre) c) = true) /\
  (forall (w' : Walker) inner,
     isInDescribe _ w' = true ->
     isInDescribe _ (visitNode w' inner) = true /\
     (hasHandler inner = false ->
      visitNode w' inner = walkChildren w' (childrenOf inner)) /\
     (forall i' e' t' a',
        inner = CallExpression i' e' t' a' ->
        isDescribeCall inner e' = true ->
        visitNode w' inner = walkChildren w' (childrenOf inner))) /\
  tl (visitTrace w node) =
    traceChildren (setIsInDescribe _ w true) (childrenOf node) /\
  allActive (tl (visitTrace w node)) /\
  (isInDescribe _ w = false -> isInDescribe _ (visitNode w node) = false) /\
  (isInDescribe _ w = true -> isInDescribe _ (visitNode w node) = true) /\
  (forall (w' : Walker) inner,
     In (w', inner) (tl (visitTrace w node)) ->
     isInDescribe _ w' = true /\
     isInDescribe _ (visitNode w' inner) = true).
Proof.
  intros node Hd.
  assert (Ht : tl (visitTrace w node) =
               traceChildren (setIsInDescribe _ w true) (childrenOf node)).
  { subst node. rewrite visitTrace_call, Hd. reflexivity. }
  assert (Ha : allActive (tl (visitTrace w node))).
  { rewrite Ht. apply traceChildren_active; [|reflexivity].
    intros c _. apply visitTrace_active. }
  split; [apply (describe_call_visit w i expression typeArguments arguments Hd)|].
  split.
  { intros pre c post _. rewrite visitNode_flag, walkChildren_keeps_flag.
    split; reflexivity. }
  split.
  { intros w' inner Hw'. split; [rewrite visitNode_flag; exact Hw'|].
    split; [apply visitNode_default|].
    intros i' e' t' a' -> Hd'.
    rewrite (describe_call_visit w' i' e' t' a' Hd'), Hw'.
    rewrite (setIsInDescribe_set w' Hw').
    apply setIsInDescribe_set. rewrite walkChildren_keeps_flag. exact Hw'. }
  split; [exact Ht | split; [exact Ha | split; [|split]]].
  - intro H. rewrite visitNode_flag. exact H.
  - intro H. rewrite visitNode_flag. exact H.
  - intros w' inner Hin.
    unfold MochaNoSideEffectCode.allActive in Ha. rewrite Forall_forall in Ha.
    specialize (Ha _ Hin). simpl in Ha.
    split; [exact Ha | rewrite visitNode_flag; exact Ha].
Qed.

(** *** Termination *)

Lemma forEachM_total {A S : Type} (f : S -> A -> option S) (g : S -> A -> S)
  (l : list A) :
  (forall a, In a l -> forall s, f s a = Some (g s a)) ->
  forall s, forEachM f l s = Some (fold_left g l s).
Proof.
  induction l as [|a l IH]; intros H s; simpl; [reflexivity|].
  rewrite (H a (or_introl eq_refl)). apply IH.
  intros b Hb. apply H. right. exact Hb.
Qed.

Lemma forEachM_ext {A S : Type} (f g : S -> A -> option S) (l : list A) :
  (forall a, In a l -> forall s, f s a = g s a) ->
  forall s, forEachM f l s = forEachM g l s.
Proof.
  induction l as [|a l IH]; intros H s; simpl; [reflexivity|].
  rewrite (H a (or_introl eq_refl)). destruct (g s a); [|reflexivity].
  apply IH. intros b Hb. apply H. right. exact Hb.
Qed.

Lemma validateExpressionFuel_enough (fuel : nat) :
  forall e (w : Walker) p,
    height e <= fuel ->
    validateExpressionFuel fuel w (Some e) p = Some (validateNode w e p).
Proof.
  induction fuel as [|k IH]; intros e w p Hh.
  - destruct e; simpl in Hh; lia.
  - cbn [MochaNoSideEffectCode.validateExpressionFuel].
    unfold MochaNoSideEffectCode.validateExpressionBody.
    destruct e as [kd i| | |i elements|i t e| |i properties| | | | | | | | | |];
      try reflexivity.
    + destruct kd; reflexivity.
    + cbn [isConstant]. rewrite validateNode_array.
      apply (forEachM_total _ (fun w e => validateNode w e p)).
      intros a Ha s. apply IH.
      assert (H := child_height a (ArrayLiteralExpression i elements) Ha). lia.
    + cbn [isConstant]. rewrite validateNode_assertion. apply IH.
      assert (H := child_height e (TypeAssertionExpression i t e)
                     (or_intror (or_introl eq_refl))). lia.
    + cbn [isConstant]. rewrite validateNode_object.
      apply (forEachM_total _
               (fun w element =>
                  match element with
                  | PropertyAssignment _ _ initializer' =>
                      validateNode w initializer' p
                  | _ => w
                  end)).
      intros a Ha s. destruct a; try reflexivity. apply IH.
      assert (H : height a2 < height (ObjectLiteralExpression i properties)).
      { eapply grandchild_height; [|exact Ha]. right. left. reflexivity. }
      lia.
Qed.

Lemma recursiveArguments_proper (e c : Node) :
  In c (recursiveArguments e) -> ProperSubexpression c e.
Proof.
  destruct e as [kd i| | |i elements|i t e| |i properties| | | | | | | | | |];
    try (intros []; fail).
  - destruct kd; intros [].
  - intro H. apply sub_child. exact H.
  - intros [<-|[]]. apply sub_child. right. left. reflexivity.
  - cbn [recursiveArguments isConstant]. intro H. apply in_flat_map in H.
    destruct H as [element [Hin Hc]].
    destruct element; try (destruct Hc; fail).
    destruct Hc as [<-|[]].
    eapply sub_trans; [|exact Hin].
    apply sub_child. right. left. reflexivity.
Qed.

Lemma validateExpressionBody_calls
  (self1 self2 : Walker -> option Node -> Node -> option Walker)
  (e : Node) (w : Walker) p :
  (forall c w', In c (recursiveArguments e) ->
                self1 w' (Some c) p = self2 w' (Some c) p) ->
  validateExpressionBody self1 w (Some e) p =
  validateExpressionBody self2 w (Some e) p.
Proof.
  unfold MochaNoSideEffectCode.validateExpressionBody.
  destruct e as [kd i| | |i elements|i t e| |i properties| | | | | | | | | |];
    try reflexivity; cbn [isConstant recursiveArguments]; intro H.
  - apply forEachM_ext. intros a Ha s. apply H. exact Ha.
  - apply H. left. reflexivity.
  - apply forEachM_ext. intros a Ha s. destruct a; try reflexivity.
    apply H. apply in_flat_map. eexists. split; [exact Ha|].
    left. reflexivity.
Qed.

(** C9: [validateExpression] returns on every tree: run with a bound on
    the nesting of its calls, any bound from the height of the tree on
    gives the result; the initializers it passes to itself are proper
    subexpressions of the one it was given, and it calls itself on no
    other. *)
Theorem validateExpression_terminates (e : Node) (w : Walker) (p : Node) :
  (forall fuel,
     height e <= fuel ->
     validateExpressionFuel fuel w (Some e) p =
     Some (validateExpression w (Some e) p)) /\
  (forall fuel, validateExpressionFuel (S fuel) w None p = Some w) /\
  (forall c, In c (recursiveArguments e) -> ProperSubexpression c e) /\
  (forall self1 self2 : Walker -> option Node -> Node -> option Walker,
     (forall c w', In c (recursiveArguments e) ->
                   self1 w' (Some c) p = self2 w' (Some c) p) ->
     validateExpressionBody self1 w (Some e) p =
     validateExpressionBody self2 w (Some e) p).
Proof.
  split; [|split; [|split]].
  - intros fuel H. apply validateExpressionFuel_enough. exact H.
  - reflexivity.
  - apply recursiveArguments_proper.
  - intros self1 self2. apply validateExpressionBody_calls.
Qed.

(** *** The order of the tests *)

Lemma fold_left_flat_map {A B S : Type} (f : S -> B -> S) (g : A -> list B)
  (l : list A) (s : S) :
  fold_left f (flat_map g l) s = fold_left (fun s a => fold_left f (g a) s) l s.
Proof.
  revert s. induction l as [|a l IH]; intro s; simpl; [reflexivity|].
  rewrite fold_left_app. apply IH.
Qed.

Lemma fold_left_pointwise {A S : Type} (f g : S -> A -> S) (l : list A) :
  (forall s a, f s a = g s a) -> forall s, fold_left f l s = fold_left g l s.
Proof.
  intro H. induction l as [|a l IH]; intro s; simpl; [reflexivity|].
  rewrite H. apply IH.
Qed.

Lemma validateRemaining_policy (w : Walker) e p :
  validateRemaining w e p =
  match
    (if String.eqb (getText e) "moment()" then Accepted
     else if isCallExpression e
             && strictEq (getFunctionTarget e) "moment()" then Accepted
     else if isNewExpression e
             && strictEq (getFunctionName e) "Date" then Accepted
     else Undecided)
  with
  | Accepted => w
  | Parts l => fold_left (fun w c => validateExpression w (Some c) p) l w
  | Undecided =>
      if ignored w e then w
      else if isConstantExpression e then w
      else addFailure _ w (failureAt p)
  end.
Proof.
  unfold MochaNoSideEffectCode.validateRemaining, MochaNoSideEffectCode.ignored.
  destruct (String.eqb (getText e) "moment()"); [reflexivity|].
  destruct (isCallExpression e && strictEq (getFunctionTarget e) "moment()");
    [reflexivity|].
  destruct (isNewExpression e && strictEq (getFunctionName e) "Date");
    reflexivity.
Qed.

(** [validateExpression] is its tests in order: the ones before the
    ignore pattern, then the pattern, then the constant expressions. *)
Lemma validateExpression_policy (w : Walker) e p :
  validateExpression w (Some e) p =
  match builtinDecision e with
  | Accepted => w
  | Parts l => fold_left (fun w c => validateExpression w (Some c) p) l w
  | Undecided =>
      if ignored w e then w
      else if isConstantExpression e then w
      else addFailure _ w (failureAt p)
  end.
Proof.
  unfold MochaNoSideEffectCode.validateExpression.
  destruct e as [kd i| | |i elements|i t e| |i properties| | | | | | | | | |];
    try reflexivity;
    try (apply validateRemaining_policy).
  - destruct kd; try reflexivity; apply validateRemaining_policy.
  - apply validateNode_array.
  - rewrite validateNode_object.
    unfold MochaNoSideEffectCode.builtinDecision.
    cbn [isConstant recursiveArguments].
    rewrite fold_left_flat_map. apply fold_left_pointwise.
    intros s a. destruct a; reflexivity.
Qed.

(** C7: with the ignore pattern [^someFunctionCall\(\)$], a call whose
    text is [someFunctionCall()] is validated without a failure, and a
    call whose text is [someFunctionCall(1)], that no other test
    accepts, gets the failure of its parent; the pattern is tried only
    on an initializer that the tests before it leave undecided. *)
Theorem ignore_pattern_scenario (r : RegExp) (p : Node) :
  RegExp_new "^someFunctionCall\(\)$" = Some r ->
  RegExp_test r "someFunctionCall()" = true ->
  RegExp_test r "someFunctionCall(1)" = false ->
  (forall sourceFile,
     newWalker sourceFile [OptObject (Some "^someFunctionCall\(\)$")] =
     inr {| isInDescribe := false; ignoreRegex := Some r; failures := [] |}) /\
  (forall (w : Walker) e,
     ignoreRegex _ w = Some r ->
     isCallExpression e = true ->
     getText e = "someFunctionCall()" ->
     validateExpression w (Some e) p = w) /\
  (forall (w : Walker) e,
     ignoreRegex _ w = Some r ->
     isCallExpression e = true ->
     getText e = "someFunctionCall(1)" ->
     getFunctionTarget e <> Some "moment()" ->
     isConstantExpression e = false ->
     validateExpression w (Some e) p = addFailure _ w (failureAt p)) /\
  (forall (w : Walker) e,
     validateExpression w (Some e) p =
     match builtinDecision e with
     | Accepted => w
     | Parts l => fold_left (fun w c => validateExpression w (Some c) p) l w
     | Undecided =>
         if ignored w e then w
         else if isConstantExpression e then w
         else addFailure _ w (failureAt p)
     end).
Proof.
  intros Hr Ht Hf. split; [|split; [|split]].
  - intro sourceFile. unfold MochaNoSideEffectCode.newWalker. simpl.
    rewrite Hr. reflexivity.
  - intros w e Hw Hc He. destruct e; try discriminate Hc.
    change (validateRemaining w
              (CallExpression info0 e typeArguments arguments) p = w).
    unfold MochaNoSideEffectCode.validateRemaining.
    rewrite He, Hw, Ht. cbn [String.eqb Ascii.eqb Bool.eqb].
    cbn [isNewExpression andb].
    destruct (isCallExpression _ && strictEq _ _); reflexivity.
  - intros w e Hw Hc He Hg Hk. destruct e; try discriminate Hc.
    change (validateRemaining w
              (CallExpression info0 e typeArguments arguments) p =
            addFailure _ w (failureAt p)).
    unfold MochaNoSideEffectCode.validateRemaining.
    rewrite He, Hw, Hf, Hk. cbn [String.eqb Ascii.eqb Bool.eqb].
    cbn [isNewExpression andb].
    assert (Hs : strictEq (getFunctionTarget
                             (CallExpression info0 e typeArguments arguments))
                   "moment()" = false).
    { unfold strictEq. destruct (getFunctionTarget _) as [s|]; [|reflexivity].
      apply String.eqb_neq. intros ->. apply Hg. reflexivity. }
    rewrite Hs, andb_false_r. reflexivity.
  - intros w e. apply validateExpression_policy.
Qed.

(** *** The options *)

Lemma parseOptions_throws (options : list OptionValue) (source : string) :
  In (OptObject (Some source)) options ->
  RegExp_new source = None ->
  forall w : Walker, exists e, parseOptions w options = inl e.
Proof.
  intros Hin Hs. induction options as [|opt rest IH]; [destruct Hin|].
  intro w. destruct Hin as [->|Hin].
  - simpl. rewrite Hs. eexists. reflexivity.
  - destruct opt as [| |[s|]]; simpl; auto.
    + eexists. reflexivity.
    + destruct (RegExp_new s); [auto | eexists; reflexivity].
Qed.

Lemma parseOptions_first_throw (pre post : list OptionValue) (source : string) :
  Forall accepted pre ->
  RegExp_new source = None ->
  forall w : Walker,
    parseOptions w (pre ++ OptObject (Some source) :: post) =
    inl (SyntaxError source).
Proof.
  intros Hp Hs. induction Hp as [|opt pre Ha _ IH]; intro w; simpl.
  - rewrite Hs. reflexivity.
  - destruct opt as [| |[s|]]; simpl in Ha; auto; [destruct Ha|].
    destruct (RegExp_new s); [apply IH | contradiction Ha; reflexivity].
Qed.

(** C8: when the option list holds an object whose [ignore] string does
    not compile, the construction of the walker throws, whatever the
    file, and [apply] ends with that exception: no list of failures is
    produced.  The exception is the [SyntaxError] of that string when
    the options before it are read without one. *)
Theorem malformed_ignore_fails_construction
  (options : list OptionValue) (source : string) :
  In (OptObject (Some source)) options ->
  RegExp_new source = None ->
  (exists e,
     forall sourceFile,
       newWalker sourceFile options = inl e /\
       apply_ sourceFile options = inl e) /\
  (forall pre post,
     options = pre ++ OptObject (Some source) :: post ->
     Forall accepted pre ->
     forall sourceFile,
       apply_ sourceFile options = inl (SyntaxError source)).
Proof.
  intros Hin Hs. split.
  - destruct (parseOptions_throws options source Hin Hs
                {| isInDescribe := false; ignoreRegex := None; failures := [] |})
      as [e He].
    exists e. intro sourceFile.
    unfold MochaNoSideEffectCode.apply, MochaNoSideEffectCode.newWalker.
    rewrite He. split; reflexivity.
  - intros pre post -> Hp sourceFile.
    unfold MochaNoSideEffectCode.apply, MochaNoSideEffectCode.newWalker.
    rewrite (parseOptions_first_throw pre post source Hp Hs). reflexivity.
Qed.

(** *** Further properties of [validateExpression] *)

(** X1: a run of [validateExpression] leaves the flag and the ignore
    pattern of the walker as they are, keeps the failures recorded
    before, and every failure it adds is the failure of the parent node
    it was given. *)
Theorem validateExpression_effect
  (w : Walker) (initializer : option Node) (p : Node) :
  isInDescribe _ (validateExpression w initializer p) = isInDescribe _ w /\
  ignoreRegex _ (validateExpression w initializer p) = ignoreRegex _ w /\
  exists extra,
    failures _ (validateExpression w initializer p) = failures _ w ++ extra /\
    Forall (fun f => f = createFailure (getStart p) (getWidth p)
                          (FAILURE_STRING ++ trimTo (getText p) 30)%string)
      extra.
Proof.
  assert (H : Grows p w (validateExpression w initializer p)).
  { destruct initializer as [e|]; [apply validateNode_Grows | apply Grows_refl]. }
  destruct H as [extra [-> HF]]. repeat split.
  exists extra. split; [reflexivity|].
  eapply Forall_impl; [|exact HF]. intros f <-. reflexivity.
Qed.





Lemma fold_fewer_reports {A : Type} (f : Walker -> A -> Walker) (l : list A) :
  (forall a, In a l ->
   forall w1 w2 : Walker,
     ignoreRegex _ w1 = None ->
     exists x1 x2,
       f w1 a = plus w1 x1 /\ f w2 a = plus w2 x2 /\
       List.length x2 <= List.length x1) ->
  forall w1 w2 : Walker,
    ignoreRegex _ w1 = None ->
    exists x1 x2,
      fold_left f l w1 = plus w1 x1 /\ fold_left f l w2 = plus w2 x2 /\
      List.length x2 <= List.length x1.
Proof.
  induction l as [|a l IH]; intros H w1 w2 Hw; simpl.
  - exists [], []. rewrite !plus_nil. repeat split. reflexivity.
  - destruct (H a (or_introl eq_refl) w1 w2 Hw) as [a1 [a2 [E1 [E2 Hl]]]].
    rewrite E1, E2.
    destruct (IH (fun b Hb => H b (or_intror Hb)) (plus w1 a1) (plus w2 a2) Hw)
      as [x1 [x2 [F1 [F2 Hx]]]].
    exists (a1 ++ x1), (a2 ++ x2). rewrite F1, F2, !plus_plus, !length_app.
    repeat split. lia.
Qed.

Lemma validateRemaining_fewer_reports (e p : Node) (w1 w2 : Walker) :
  ignoreRegex _ w1 = None ->
  exists x1 x2,
    validateRemaining w1 e p = plus w1 x1 /\
    validateRemaining w2 e p = plus w2 x2 /\
    List.length x2 <= List.length x1.
Proof.
  intro Hw. unfold MochaNoSideEffectCode.validateRemaining. rewrite Hw.
  destruct (String.eqb (getText e) "moment()");
    [exists [], []; rewrite !plus_nil; repeat split; reflexivity|].
  destruct (isCallExpression e && strictEq (getFunctionTarget e) "moment()");
    [exists [], []; rewrite !plus_nil; repeat split; reflexivity|].
  destruct (isNewExpression e && strictEq (getFunctionName e) "Date");
    [exists [], []; rewrite !plus_nil; repeat split; reflexivity|].
  destruct (isConstantExpression e).
  - exists [], []. rewrite !plus_nil. repeat split.
    + destruct (match ignoreRegex _ w2 with
                | Some r => RegExp_test r (getText e)
                | None => false
                end); reflexivity.
    + reflexivity.
  - destruct (match ignoreRegex _ w2 with
              | Some r => RegExp_test r (getText e)
              | None => false
              end).
    + exists [failureAt p], []. rewrite plus_nil. repeat split. simpl. lia.
    + exists [failureAt p], [failureAt p]. repeat split. reflexivity.
Qed.

Lemma validateNode_fewer_reports (e : Node) :
  forall (p : Node) (w1 w2 : Walker),
    ignoreRegex _ w1 = None ->
    exists x1 x2,
      validateNode w1 e p = plus w1 x1 /\
      validateNode w2 e p = plus w2 x2 /\
      List.length x2 <= List.length x1.
Proof.
  induction e as [e IH] using Node_height_induction. intros p w1 w2 Hw.
  destruct e as [k i| | |i elements|i t e| |i properties| | | | | | | | | |];
    try (exists [], []; rewrite !plus_nil; repeat split; reflexivity);
    try (apply (validateRemaining_fewer_reports _ p w1 w2 Hw)).
  - destruct k;
      try (exists [], []; rewrite !plus_nil; repeat split; reflexivity);
      apply (validateRemaining_fewer_reports _ p w1 w2 Hw).
  - rewrite !validateNode_array.
    apply (fold_fewer_reports (fun w e => validateNode w e p)); [|exact Hw].
    intros a Ha. apply IH. apply child_height. exact Ha.
  - rewrite !validateNode_assertion. apply IH; [|exact Hw].
    apply child_height. right. left. reflexivity.
  - rewrite !validateNode_object.
    apply (fold_fewer_reports
             (fun w element =>
                match element with
                | PropertyAssignment _ _ initializer' =>
                    validateNode w initializer' p
                | _ => w
                end)); [|exact Hw].
    intros a Ha v1 v2 Hv.
    destruct a;
      try (exists [], []; rewrite !plus_nil; repeat split; reflexivity).
    apply IH; [|exact Hv].
    eapply grandchild_height; [|exact Ha]. right. left. reflexivity.
Qed.

(** X3: an ignore pattern only takes failures away: giving a walker
    without a pattern any pattern leaves it, after the validation of an
    initializer, with at most as many failures as it has without, and
    an initializer that is safe without the pattern is safe with it. *)
Theorem ignore_pattern_only_removes (e p : Node) (w : Walker) (r : RegExp) :
  ignoreRegex _ w = None ->
  List.length
    (failures _ (validateExpression (setIgnoreRegex _ w r) (Some e) p))
  <= List.length (failures _ (validateExpression w (Some e) p)) /\
  (Safe w e p -> Safe (setIgnoreRegex _ w r) e p).
Proof.
  intro Hw.
  destruct (validateNode_fewer_reports e p w (setIgnoreRegex _ w r) Hw)
    as [x1 [x2 [E1 [E2 Hl]]]].
  unfold MochaNoSideEffectCode.Safe, MochaNoSideEffectCode.validateExpression.
  rewrite E1, E2. simpl. rewrite !length_app. split; [lia|].
  intro Hs. apply plus_eq in Hs. subst x1. destruct x2; [|simpl in Hl; lia].
  apply plus_nil.
Qed.

(** *** Expressions that are never reported *)

Lemma fold_left_fixed {A S : Type} (f : S -> A -> S) (l : list A) (s : S) :
  (forall a, In a l -> f s a = s) -> fold_left f l s = s.
Proof.
  induction l as [|a l IH]; intro H; simpl; [reflexivity|].
  rewrite (H a (or_introl eq_refl)). apply IH.
  intros b Hb. apply H. right. exact Hb.
Qed.

Lemma inert_elements (l : list Node) :
  (fix all (l : list Node) : bool :=
     match l with
     | [] => true
     | x :: l' => inert x && all l'
     end) l = true ->
  forall x, In x l -> inert x = true.
Proof.
  induction l as [|a l IH]; intros H x Hx; [destruct Hx|].
  apply andb_prop in H. destruct H as [Ha Hl].
  destruct Hx as [<-|Hx]; [exact Ha | apply IH; assumption].
Qed.

Lemma inert_properties (l : list Node) :
  (fix all (l : list Node) : bool :=
     match l with
     | [] => true
     | PropertyAssignment _ _ initializer' :: l' =>
         inert initializer' && all l'
     | _ :: l' => all l'
     end) l = true ->
  forall i n x, In (PropertyAssignment i n x) l -> inert x = true.
Proof.
  induction l as [|a l IH]; intros H i n x Hx; [destruct Hx|].
  destruct Hx as [->|Hx].
  - apply andb_prop in H. apply H.
  - apply (IH) with (i := i) (n := n); [|exact Hx].
    destruct a; try exact H. apply andb_prop in H. apply H.
Qed.

(** X4: an expression made of constants, function literals, template
    strings, identifiers and property accesses, put together with array
    literals, object literals and type assertions, is never reported:
    validating it changes no walker, whatever the ignore pattern and
    the parent node. *)
Theorem inert_safe (e : Node) :
  inert e = true ->
  forall (w : Walker) (p : Node), validateExpression w (Some e) p = w.
Proof.
  unfold MochaNoSideEffectCode.validateExpression.
  induction e as [e IH] using Node_height_induction. intros He w p.
  destruct e as [k i| | |i elements|i t e| |i properties| | | | | | | | | |];
    try reflexivity; try discriminate He.
  - destruct k; try reflexivity; discriminate He.
  - rewrite validateNode_array. apply fold_left_fixed.
    intros a Ha. apply IH.
    + apply child_height. exact Ha.
    + apply (inert_elements elements He a Ha).
  - rewrite validateNode_assertion. apply IH.
    + apply child_height. right. left. reflexivity.
    + exact He.
  - rewrite validateNode_object. apply fold_left_fixed.
    intros a Ha. destruct a; try reflexivity. apply IH.
    + eapply grandchild_height; [|exact Ha]. right. left. reflexivity.
    + apply (inert_properties properties He _ _ _ Ha).
Qed.

(** *** Further properties of the walk *)

Lemma anchored_incl (t t' : list (Walker * Node)) (f : RuleFailure) :
  incl t t' -> anchored t f -> anchored t' f.
Proof.
  intros Hi [w0 [d [Hin H]]]. exists w0, d. split; [apply Hi; exact Hin | exact H].
Qed.

Lemma Forall_anchored_incl (t t' : list (Walker * Node)) extra :
  incl t t' -> Forall (anchored t) extra -> Forall (anchored t') extra.
Proof.
  intros Hi HF. eapply Forall_impl; [|exact HF].
  intro f. apply anchored_incl. exact Hi.
Qed.

Lemma walkChildren_effect (l : list Node) :
  (forall c, In c l ->
   forall w : Walker,
     exists extra,
       visitNode w c = plus w extra /\
       Forall (anchored (visitTrace w c)) extra) ->
  forall w : Walker,
    exists extra,
      walkChildren w l = plus w extra /\
      Forall (anchored (traceChildren w l)) extra.
Proof.
  induction l as [|c l IH]; intros H w.
  - exists []. rewrite plus_nil. split; [reflexivity | constructor].
  - destruct (H c (or_introl eq_refl) w) as [xc [Ec Hc]].
    destruct (IH (fun d Hd => H d (or_intror Hd)) (visitNode w c))
      as [x [El Hl]].
    exists (xc ++ x). split.
    + change (walkChildren w (c :: l)) with (walkChildren (visitNode w c) l).
      rewrite El, Ec, plus_plus. reflexivity.
    + cbn [MochaNoSideEffectCode.traceChildren]. apply Forall_app. split.
      * eapply Forall_anchored_incl; [|exact Hc]. apply incl_appl, incl_refl.
      * eapply Forall_anchored_incl; [|exact Hl]. apply incl_appr, incl_refl.
Qed.

Lemma Grows_anchored (w : Walker) (d : Node) (w' : Walker)
  (t : list (Walker * Node)) :
  Grows d w w' ->
  In (w, d) t -> isInDescribe _ w = true ->
  isCallExpression d = true \/ isVariableDeclaration d = true ->
  exists extra, w' = plus w extra /\ Forall (anchored t) extra.
Proof.
  intros [extra [-> HF]] Hin Hw Hk. exists extra. split; [reflexivity|].
  eapply Forall_impl; [|exact HF]. intros f <-.
  exists w, d. repeat split; assumption.
Qed.

Lemma setIsInDescribe_same (w : Walker) :
  setIsInDescribe _ w (isInDescribe _ w) = w.
Proof. destruct w. reflexivity. Qed.

Lemma describe_exit (w : Walker) extra :
  (if Bool.eqb (isInDescribe _ w) false
   then setIsInDescribe _ (plus (setIsInDescribe _ w true) extra) false
   else plus (setIsInDescribe _ w true) extra)
  = plus w extra.
Proof. destruct w as [[|] r fs]; reflexivity. Qed.

Lemma visitNode_effect (node : Node) :
  forall w : Walker,
    exists extra,
      visitNode w node = plus w extra /\
      Forall (anchored (visitTrace w node)) extra.
Proof.
  induction node as [node IH] using Node_induction. intro w.
  assert (Hnil : exists extra,
             w = plus w extra /\ Forall (anchored (visitTrace w node)) extra).
  { exists []. rewrite plus_nil. split; [reflexivity | constructor]. }
  destruct (hasHandler node) eqn:Hh.
  - destruct node; try discriminate.
    + rewrite visitNode_call, visitTrace_call.
      cbn [MochaNoSideEffectCode.visitCallExpression].
      unfold MochaNoSideEffectCode.visitCallExpressionWith.
      destruct (isDescribeCall _ _) eqn:Hd.
      * destruct (walkChildren_effect _ IH (setIsInDescribe _ w true))
          as [x [Ex Hx]].
        exists x. split.
        -- rewrite Ex. apply describe_exit.
        -- eapply Forall_anchored_incl; [|exact Hx]. apply incl_tl, incl_refl.
      * destruct (isLifecycleCall _).
        -- rewrite visitTrace_call, Hd in Hnil. exact Hnil.
        -- destruct (isInDescribe _ w) eqn:Hw.
           ++ eapply Grows_anchored.
              ** apply validateNode_Grows.
              ** left. reflexivity.
              ** exact Hw.
              ** left. reflexivity.
           ++ rewrite visitTrace_call, Hd in Hnil. exact Hnil.
    + cbn [MochaNoSideEffectCode.visitNode
             MochaNoSideEffectCode.visitVariableDeclaration].
      destruct (isInDescribe _ w) eqn:Hw; cbn [Bool.eqb]; [|exact Hnil].
      eapply Grows_anchored.
      * destruct initializer as [e|];
          [apply validateNode_Grows | apply Grows_refl].
      * left. reflexivity.
      * exact Hw.
      * right. reflexivity.
    + exact Hnil.
    + exact Hnil.
  - rewrite (visitNode_default w node Hh), (visitTrace_default w node Hh).
    destruct (walkChildren_effect _ IH w) as [x [Ex Hx]].
    exists x. split; [exact Ex|].
    eapply Forall_anchored_incl; [|exact Hx]. apply incl_tl, incl_refl.
Qed.

(** X5: a visit leaves the flag and the ignore pattern of the walker as
    they are and keeps the failures recorded before; every failure it
    adds is the failure of a variable declaration or of a call
    expression that the walk visited with the flag set. *)
Theorem visitNode_reports_visited (w : Walker) (node : Node) :
  isInDescribe _ (visitNode w node) = isInDescribe _ w /\
  ignoreRegex _ (visitNode w node) = ignoreRegex _ w /\
  exists extra,
    failures _ (visitNode w node) = failures _ w ++ extra /\
    Forall (fun f =>
              exists w0 d,
                In (w0, d) (visitTrace w node) /\
                isInDescribe _ w0 = true /\
                (isCallExpression d = true \/ isVariableDeclaration d = true) /\
                f = createFailure (getStart d) (getWidth d)
                      (FAILURE_STRING ++ trimTo (getText d) 30)%string)
      extra.
Proof.
  destruct (visitNode_effect node w) as [extra [-> HF]]. repeat split.
  exists extra. split; [reflexivity | exact HF].
Qed.

Lemma describeFree_child (c n : Node) :
  Child c n -> describeFree n -> describeFree c.
Proof.
  intros Hc H d [->|Hd]; apply H; right.
  - apply sub_child. exact Hc.
  - eapply sub_trans; [exact Hd | exact Hc].
Qed.

(** X6: code outside a describe call is not reported: when the flag is
    clear and the tree holds no describe call, the visit changes
    nothing. *)
Theorem outside_describe_unchanged (node : Node) :
  describeFree node ->
  forall w : Walker, isInDescribe _ w = false -> visitNode w node = w.
Proof.
  induction node as [node IH] using Node_induction. intros Hf w Hw.
  destruct (hasHandler node) eqn:Hh.
  - destruct node; try discriminate; try reflexivity.
    + rewrite visitNode_call. cbn [MochaNoSideEffectCode.visitCallExpression].
      unfold MochaNoSideEffectCode.visitCallExpressionWith.
      rewrite (Hf _ (or_introl eq_refl)), Hw.
      destruct (isLifecycleCall _); reflexivity.
    + cbn [MochaNoSideEffectCode.visitNode
             MochaNoSideEffectCode.visitVariableDeclaration].
      rewrite Hw. reflexivity.
  - rewrite (visitNode_default w node Hh). apply fold_left_fixed.
    intros c Hc. apply IH; [exact Hc | | exact Hw].
    apply (describeFree_child c node Hc Hf).
Qed.

(** X7: a describe call nested in another is walked as its children
    are: with the flag set already, visiting the call is visiting its
    children one after the other, and nothing else happens. *)
Theorem nested_describe_transparent
  (w : Walker) i expression typeArguments arguments :
  let node := CallExpression i expression typeArguments arguments in
  isDescribeCall node expression = true ->
  isInDescribe _ w = true ->
  visitNode w node = walkChildren w (childrenOf node) /\
  visitTrace w node = (w, node) :: traceChildren w (childrenOf node).
Proof.
  intros node Hd Hw. subst node. rewrite visitNode_call, visitTrace_call.
  cbn [MochaNoSideEffectCode.visitCallExpression].
  unfold MochaNoSideEffectCode.visitCallExpressionWith.
  rewrite Hd, Hw. cbn [Bool.eqb].
  rewrite <- Hw, setIsInDescribe_same. split; reflexivity.
Qed.

(** *** The file and the options *)

Lemma fold_plus {A : Type} (P : RuleFailure -> Prop)
  (f : Walker -> A -> Walker) (l : list A) :
  (forall a, In a l ->
   forall w : Walker, exists x, f w a = plus w x /\ Forall P x) ->
  forall w : Walker, exists x, fold_left f l w = plus w x /\ Forall P x.
Proof.
  induction l as [|a l IH]; intros H w; simpl.
  - exists []. rewrite plus_nil. split; [reflexivity | constructor].
  - destruct (H a (or_introl eq_refl) w) as [xa [Ea Ha]]. rewrite Ea.
    destruct (IH (fun b Hb => H b (or_intror Hb)) (plus w xa)) as [x [E Hx]].
    exists (xa ++ x). rewrite E, plus_plus. split; [reflexivity|].
    apply Forall_app. split; assumption.
Qed.

Lemma plus_none (P : RuleFailure -> Prop) (w : Walker) :
  exists x, w = plus w x /\ Forall P x.
Proof. exists []. rewrite plus_nil. split; [reflexivity | constructor]. Qed.

Lemma parseOptions_keeps (options : list OptionValue) :
  forall w w' : Walker,
    parseOptions w options = inr w' ->
    isInDescribe _ w' = isInDescribe _ w /\ failures _ w' = failures _ w.
Proof.
  induction options as [|opt rest IH]; intros w w' H; simpl in H.
  - injection H as <-. split; reflexivity.
  - destruct opt as [| |[s|]]; try discriminate H; try (apply IH; exact H).
    destruct (RegExp_new s); [|discriminate H].
    apply IH in H. exact H.
Qed.

(** X9: a file that is not a mocha test is not reported on, and in a
    mocha test the statements of the file that are neither variable
    statements nor describe calls are passed over: a file that has no
    other statement leaves the walker as it is. *)
Theorem visitSourceFile_passes_over (w : Walker) (file : SourceFile) :
  (isMochaTest file = false -> visitSourceFile w file = w) /\
  (Forall (fun statement =>
             isVariableStatement statement = false /\
             isStatementDescribeCall statement = false) (statements file) ->
   visitSourceFile w file = w).
Proof.
  unfold MochaNoSideEffectCode.visitSourceFile. split.
  - intros ->. reflexivity.
  - intro H. destruct (isMochaTest file); [|reflexivity].
    apply fold_left_fixed. intros statement Hin.
    rewrite Forall_forall in H. destruct (H statement Hin) as [Hv Hd].
    cbv zeta. rewrite Hd. destruct statement; try reflexivity.
    discriminate Hv.
Qed.

Lemma parseOptions_accepted_prefix (pre rest : list OptionValue) :
  Forall accepted pre ->
  forall w : Walker,
    exists w',
      parseOptions w pre = inr w' /\
      isInDescribe _ w' = isInDescribe _ w /\
      failures _ w' = failures _ w /\
      parseOptions w (pre ++ rest) = parseOptions w' rest.
Proof.
  induction 1 as [|opt pre Ha _ IH]; intro w; simpl.
  - exists w. repeat split.
  - destruct opt as [| |[s|]]; simpl in Ha; try apply IH; [destruct Ha|].
    destruct (RegExp_new s) as [r|]; [|contradiction Ha; reflexivity].
    destruct (IH (setIgnoreRegex _ w r)) as [w' [E [Hf [Hl Er]]]].
    exists w'. repeat split; assumption.
Qed.

Lemma parseOptions_no_ignore (post : list OptionValue) :
  Forall accepted post ->
  Forall (fun opt => ~ givesIgnore opt) post ->
  forall w : Walker, parseOptions w post = inr w.
Proof.
  induction 1 as [|opt post Ha _ IH]; intros Hn w; simpl; [reflexivity|].
  inversion Hn as [|? ? Hopt Hpost]; subst.
  destruct opt as [| |[s|]]; simpl in Ha; try (apply IH; exact Hpost).
  - destruct Ha.
  - exfalso. apply Hopt. exists s. reflexivity.
Qed.

(** X10: the construction of the walker succeeds exactly when every
    option is read without an exception: no entry is [null], and every
    ignore string compiles. *)
Theorem parseOptions_succeeds_iff (w : Walker) (options : list OptionValue) :
  (exists w', parseOptions w options = inr w') <-> Forall accepted options.
Proof.
  split.
  - revert w. induction options as [|opt rest IH]; intros w [w' H];
      [constructor|].
    simpl in H. destruct opt as [| |[s|]]; try discriminate H.
    + constructor; [exact I | apply (IH w); exists w'; exact H].
    + destruct (RegExp_new s) as [r|] eqn:Er; [|discriminate H].
      constructor; [simpl; rewrite Er; discriminate|].
      apply (IH (setIgnoreRegex _ w r)). exists w'. exact H.
    + constructor; [exact I | apply (IH w); exists w'; exact H].
  - intro H.
    destruct (parseOptions_accepted_prefix options [] H w) as [w' [E _]].
    exists w'. exact E.
Qed.

(** X11: of several ignore strings the last one is kept: after options
    read without an exception, an ignore string that compiles, and
    options that give no ignore string, the walker has the pattern of
    that string, and its flag and failures are untouched. *)
Theorem parseOptions_last_ignore_wins
  (w : Walker) (pre post : list OptionValue) (source : string) (r : RegExp) :
  Forall accepted pre ->
  RegExp_new source = Some r ->
  Forall accepted post ->
  Forall (fun opt => ~ givesIgnore opt) post ->
  parseOptions w (pre ++ OptObject (Some source) :: post) =
  inr {| isInDescribe := isInDescribe _ w; ignoreRegex := Some r;
         failures := failures _ w |}.
Proof.
  intros Hpre Hr Hpost Hn.
  destruct (parseOptions_accepted_prefix pre (OptObject (Some source) :: post)
              Hpre w) as [w' [_ [Hf [Hl ->]]]].
  simpl. rewrite Hr. rewrite (parseOptions_no_ignore post Hpost Hn).
  unfold setIgnoreRegex. rewrite Hf, Hl. reflexivity.
Qed.

(** X12: a [null] entry in the option list makes the construction
    throw a [TypeError] when the options before it are read without an
    exception, whatever follows it, and [apply] ends with it. *)
Theorem null_option_throws
  (pre post : list OptionValue) (file : SourceFile) :
  Forall accepted pre ->
  newWalker file (pre ++ OptNull :: post) = inl TypeError /\
  apply_ file (pre ++ OptNull :: post) = inl TypeError.
Proof.
  intro Hpre.
  unfold MochaNoSideEffectCode.apply, MochaNoSideEffectCode.newWalker.
  destruct (parseOptions_accepted_prefix pre (OptNull :: post) Hpre
              {| isInDescribe := false; ignoreRegex := None; failures := [] |})
    as [w' [_ [_ [_ ->]]]].
  split; reflexivity.
Qed.

Lemma describeFree_intro (n : Node) :
  match n with
  | CallExpression _ e _ _ => isDescribeCall n e = false
  | _ => True
  end ->
  (forall c, Child c n -> describeFree c) ->
  describeFree n.
Proof.
  intros H0 Hc d [->|Hd]; [exact H0|].
  inversion Hd as [c n' H|c m n' H H']; subst.
  - apply (Hc d H). left. reflexivity.
  - apply (Hc m H'). right. exact H.
Qed.

Lemma traceChildren_within (l : list Node) (n : Node) :
  (forall c, In c l -> Child c n) ->
  (forall c, In c l ->
   forall (w w0 : Walker) d,
     In (w0, d) (visitTrace w c) -> d = c \/ ProperSubexpression d c) ->
  forall (w w0 : Walker) d,
    In (w0, d) (traceChildren w l) -> ProperSubexpression d n.
Proof.
  induction l as [|c l IH]; intros Hc H w w0 d Hin; [destruct Hin|].
  cbn [MochaNoSideEffectCode.traceChildren] in Hin.
  apply in_app_or in Hin. destruct Hin as [Hin|Hin].
  - destruct (H c (or_introl eq_refl) w w0 d Hin) as [->|Hd].
    + apply sub_child. apply Hc. left. reflexivity.
    + eapply sub_trans; [exact Hd|]. apply Hc. left. reflexivity.
  - apply (IH (fun b Hb => Hc b (or_intror Hb))
              (fun b Hb => H b (or_intror Hb)) _ w0 d Hin).
Qed.

Lemma visitTrace_within (node : Node) :
  forall (w w0 : Walker) d,
    In (w0, d) (visitTrace w node) -> d = node \/ ProperSubexpression d node.
Proof.
  induction node as [node IH] using Node_induction. intros w w0 d Hin.
  assert (Hc : forall (w : Walker), In (w0, d) (traceChildren w (childrenOf node)) ->
               ProperSubexpression d node).
  { intros w' H. apply (traceChildren_within (childrenOf node) node)
                   with (w := w') (w0 := w0); [auto | exact IH | exact H]. }
  destruct (hasHandler node) eqn:Hh.
  - destruct node; try discriminate.
    + rewrite visitTrace_call in Hin. destruct Hin as [E|Hin].
      * injection E as _ <-. left. reflexivity.
      * destruct (isDescribeCall _ _); [|destruct Hin].
        right. apply (Hc _ Hin).
    + destruct Hin as [E|[]]. injection E as _ <-. left. reflexivity.
    + destruct Hin as [E|[]]. injection E as _ <-. left. reflexivity.
    + destruct Hin as [E|[]]. injection E as _ <-. left. reflexivity.
  - rewrite (visitTrace_default w node Hh) in Hin. destruct Hin as [E|Hin].
    + injection E as _ <-. left. reflexivity.
    + right. apply (Hc _ Hin).
Qed.

(** X14: a visit reports on the tree it is given and on nothing else:
    every failure it adds is the failure of a variable declaration or
    of a call expression that is the node visited or a proper
    subexpression of it. *)
Theorem failures_anchored_in_tree (w : Walker) (node : Node) :
  exists extra,
    failures _ (visitNode w node) = failures _ w ++ extra /\
    Forall (fun f =>
              exists d,
                (d = node \/ ProperSubexpression d node) /\
                (isCallExpression d = true \/ isVariableDeclaration d = true) /\
                f = createFailure (getStart d) (getWidth d)
                      (FAILURE_STRING ++ trimTo (getText d) 30)%string)
      extra.
Proof.
  destruct (visitNode_effect node w) as [extra [-> HF]].
  exists extra. split; [reflexivity|].
  eapply Forall_impl; [|exact HF].
  intros f [w0 [d [Hin [_ [Hk ->]]]]]. exists d.
  split; [apply (visitTrace_within node w w0 d Hin) | split; [exact Hk | reflexivity]].
Qed.

(** *** The failures of a file *)

Lemma below_child (d c n : Node) :
  d = c \/ ProperSubexpression d c -> Child c n -> ProperSubexpression d n.
Proof.
  intros [->|H] Hc; [apply sub_child; exact Hc|].
  eapply sub_trans; [exact H | exact Hc].
Qed.

Lemma visitCallExpression_effect (w : Walker) (call : Node) :
  exists x,
    visitCallExpression w call = plus w x /\
    Forall (fun f =>
              exists d,
                (d = call \/ ProperSubexpression d call) /\
                (isCallExpression d = true \/ isVariableDeclaration d = true) /\
                f = failureAt d) x.
Proof.
  destruct call; try apply plus_none.
  rewrite <- visitNode_call.
  destruct (visitNode_effect (CallExpression info0 call typeArguments arguments) w)
    as [x [E Hx]].
  exists x. split; [exact E|].
  eapply Forall_impl; [|exact Hx].
  intros f [w0 [d [Hin [_ [Hk ->]]]]]. exists d.
  split; [exact (visitTrace_within _ w w0 d Hin) | split; [exact Hk | reflexivity]].
Qed.

Lemma visitSourceFile_effect (w : Walker) (file : SourceFile) :
  exists x, visitSourceFile w file = plus w x /\ Forall (reportedIn file) x.
Proof.
  unfold MochaNoSideEffectCode.visitSourceFile.
  destruct (isMochaTest file); [|apply plus_none].
  apply fold_plus. intros statement Hs w0.
  assert (H1 : exists x,
             match statement with
             | VariableStatement _ (VariableDeclarationList _ declarations) =>
                 fold_left
                   (fun w declaration =>
                      match declaration with
                      | VariableDeclaration _ _ _ initializer =>
                          validateExpression w initializer declaration
                      | _ => w
                      end) declarations w0
             | _ => w0
             end = plus w0 x /\ Forall (reportedIn file) x).
  { destruct statement as [| | | | | | | | | | | |i0 dl| | | |];
      try apply plus_none.
    destruct dl as [| | | | | | | | | | |i1 declarations| | | | |];
      try apply plus_none.
    apply fold_plus. intros d Hd w1.
    destruct d as [| | | | | | | | | |i2 n t init| | | | | |];
      try apply plus_none.
    assert (H : Grows (VariableDeclaration i2 n t init) w1
                  (validateExpression w1 init (VariableDeclaration i2 n t init))).
    { destruct init as [e|]; [apply validateNode_Grows | apply Grows_refl]. }
    destruct H as [x [-> Hx]]. exists x. split; [reflexivity|].
    eapply Forall_impl; [|exact Hx]. intros f <-.
    exists (VariableDeclaration i2 n t init),
      (VariableStatement i0 (VariableDeclarationList i1 declarations)).
    split; [exact Hs | split; [|split; [right; reflexivity | reflexivity]]].
    apply (sub_trans _ (VariableDeclarationList i1 declarations));
      [apply sub_child; exact Hd | left; reflexivity]. }
  destruct H1 as [x1 [E1 H1]]. cbv zeta. rewrite E1.
  destruct (isStatementDescribeCall statement).
  - destruct statement as [| | | | | | | | | | | | |i0 call| | |];
      try (exists x1; split; [reflexivity | exact H1]).
    destruct (visitCallExpression_effect (plus w0 x1) call) as [x2 [E2 H2]].
    exists (x1 ++ x2). rewrite E2, plus_plus. split; [reflexivity|].
    apply Forall_app. split; [exact H1|].
    eapply Forall_impl; [|exact H2].
    intros f [d [Hd [Hk ->]]]. exists d, (ExpressionStatement i0 call).
    split; [exact Hs | split; [|split; [exact Hk | reflexivity]]].
    apply (below_child d call); [exact Hd | left; reflexivity].
  - exists x1. split; [reflexivity | exact H1].
Qed.

(** X8: every failure that [apply] returns is the failure of a node of
    the file: a variable declaration or a call expression below one of
    the statements of the file; the failure starts at that node, has
    its width, and its message is [FAILURE_STRING] followed by the
    trimmed text of the node. *)
Theorem apply_failures_anchored
  (file : SourceFile) (options : list OptionValue) (fs : list RuleFailure) :
  apply_ file options = inr fs ->
  Forall (fun f =>
            exists d statement,
              In statement (statements file) /\
              ProperSubexpression d statement /\
              (isCallExpression d = true \/ isVariableDeclaration d = true) /\
              f = createFailure (getStart d) (getWidth d)
                    (FAILURE_STRING ++ trimTo (getText d) 30)%string) fs.
Proof.
  unfold MochaNoSideEffectCode.apply, MochaNoSideEffectCode.newWalker.
  destruct (parseOptions _ options) as [e|w0] eqn:Ep; [discriminate|].
  intro H. injection H as <-.
  apply parseOptions_keeps in Ep. destruct Ep as [_ Ef].
  destruct (visitSourceFile_effect w0 file) as [x [-> Hx]].
  simpl. rewrite Ef. exact Hx.
Qed.

End Facts.

(** *** The properties on the example trees *)

Lemma lifecycle_call_not_traversed_witness :
  isLifecycleCall calleeName (callIn (hookUnsafe 17)) = true /\
  getText (identifier 17 "it") <> "describe.skip" /\
  visit inside (callIn (hookUnsafe 17)) = inside /\
  visitCallExpression LiteralPattern testPattern isConstant calleeName
    calleeTarget trimToLength inside (callIn (hookUnsafe 17)) = inside /\
  trace inside (callIn (hookUnsafe 17)) = [(inside, callIn (hookUnsafe 17))].
Proof.
  assert (Hl : isLifecycleCall calleeName (callIn (hookUnsafe 17)) = true)
    by reflexivity.
  assert (Ht : getText (identifier 17 "it") <> "describe.skip")
    by (simpl; discriminate).
  split; [exact Hl | split; [exact Ht|]].
  exact (lifecycle_call_not_traversed LiteralPattern testPattern isConstant
           calleeName calleeTarget trimToLength inside _ _ _ _ Hl Ht).
Defined.

(** The scenario of the hook: the declaration [x = someFunctionCall()]
    is reported when it stands in the describe call, and is not when it
    stands in a hook of the describe call. *)
Example hook_body_not_reported :
  failures _ (visit outside (callIn describeUnsafe)) =
    [createFailure 21 22
       "Mocha test contains dangerous variable initialization. Move to before()/beforeEach(): x = someFunctionCall()"] /\
  failures _ (visit outside (callIn describeHook)) = [].
Proof. split; reflexivity. Qed.

Lemma describe_flag_nesting_witness :
  isDescribeCall calleeName (callIn nestedDescribe) (identifier 0 "describe")
  = true /\
  visit outside (callIn nestedDescribe) =
    setIsInDescribe _
      (walkChildren LiteralPattern testPattern isConstant calleeName
         calleeTarget trimToLength (setIsInDescribe _ outside true)
         (childrenOf (callIn nestedDescribe)))
      false /\
  allActive _ (tl (trace outside (callIn nestedDescribe))) /\
  failures _ (visit outside (callIn nestedDescribe)) =
    [createFailure 53 22
       "Mocha test contains dangerous variable initialization. Move to before()/beforeEach(): x = someFunctionCall()"] /\
  isInDescribe _ (visit outside (callIn nestedDescribe)) = false.
Proof.
  assert (Hd : isDescribeCall calleeName (callIn nestedDescribe)
                 (identifier 0 "describe") = true) by reflexivity.
  destruct (describe_flag_nesting LiteralPattern testPattern isConstant
              calleeName calleeTarget trimToLength outside _ _ _ _ Hd)
    as [Hv [_ [_ [_ [Ha [Hf _]]]]]].
  split; [exact Hd | split; [exact Hv | split; [exact Ha | split]]].
  - exact (eq_trans (f_equal (failures LiteralPattern) Hv) eq_refl).
  - apply Hf. reflexivity.
Defined.

(** The scenario of the nested describe calls: the declaration that
    follows the inner call is still reported, and the flag is clear
    when the outer call is left. *)
Example nested_describe_reported :
  failures _ (visit outside (callIn nestedDescribe)) =
    [createFailure 53 22
       "Mocha test contains dangerous variable initialization. Move to before()/beforeEach(): x = someFunctionCall()"] /\
  isInDescribe _ (visit outside (callIn nestedDescribe)) = false.
Proof. split; reflexivity. Qed.

Lemma ignore_pattern_scenario_witness :
  compilePattern "^someFunctionCall\(\)$" = Some someFunctionCallPattern /\
  testPattern someFunctionCallPattern "someFunctionCall()" = true /\
  testPattern someFunctionCallPattern "someFunctionCall(1)" = false /\
  validate ignoring (Some (someFunctionCall 25)) (declare 21 (someFunctionCall 25))
  = ignoring /\
  validate ignoring (Some (someFunctionCall1 25))
    (declare 21 (someFunctionCall 25))
  = addFailure _ ignoring
      (failureAt trimToLength (declare 21 (someFunctionCall 25))).
Proof.
  assert (Hc : compilePattern "^someFunctionCall\(\)$"
               = Some someFunctionCallPattern) by reflexivity.
  assert (Ht : testPattern someFunctionCallPattern "someFunctionCall()" = true)
    by reflexivity.
  assert (Hf : testPattern someFunctionCallPattern "someFunctionCall(1)" = false)
    by reflexivity.
  destruct (ignore_pattern_scenario LiteralPattern compilePattern testPattern
              isConstant calleeName calleeTarget trimToLength
              someFunctionCallPattern (declare 21 (someFunctionCall 25))
              Hc Ht Hf) as [_ [Hsafe [Hunsafe _]]].
  split; [exact Hc | split; [exact Ht | split; [exact Hf | split]]].
  - apply Hsafe; reflexivity.
  - apply Hunsafe; try reflexivity. simpl. discriminate.
Defined.

Lemma malformed_ignore_fails_construction_witness :
  In (OptObject (Some "(")) [OptScalar; OptObject (Some "(")] /\
  compilePattern "(" = None /\
  applyRule exampleFile [OptScalar; OptObject (Some "(")]
  = inl (SyntaxError "(").
Proof.
  assert (Hin : In (OptObject (Some "(")) [OptScalar; OptObject (Some "(")])
    by (right; left; reflexivity).
  assert (Hs : compilePattern "(" = None) by reflexivity.
  split; [exact Hin | split; [exact Hs|]].
  apply (proj2 (malformed_ignore_fails_construction LiteralPattern
                  compilePattern testPattern isConstant calleeName
                  calleeTarget trimToLength hasDescribeStatement
                  describeStatement _ _ Hin Hs) [OptScalar] []).
  - reflexivity.
  - repeat constructor.
Defined.

(** The scenario of the literals: [[5, 5]] is safe, [[5,
    someFunctionCall()]] and [{ a: 5, b: someFunctionCall() }] are not. *)
Example literal_scenarios :
  validate inside (Some (safeArray 25)) (declare 21 (safeArray 25)) = inside /\
  failures _ (validate inside (Some (unsafeArray 25)) (declare 21 (unsafeArray 25)))
  = [failureAt trimToLength (declare 21 (unsafeArray 25))] /\
  failures _ (validate inside (Some (unsafeObject 25)) (declare 21 (unsafeObject 25)))
  = [failureAt trimToLength (declare 21 (unsafeObject 25))].
Proof. repeat split; reflexivity. Qed.

(** On the example file: with the pattern the declaration is not
    reported, without it it is. *)
Example apply_scenarios :
  applyRule exampleFile [OptObject (Some "^someFunctionCall\(\)$")] = inr [] /\
  applyRule exampleFile [] =
    inr [failureAt trimToLength (declare 21 (someFunctionCall 25))].
Proof. split; reflexivity. Qed.

(** *** The further properties on the example trees *)

Lemma ignore_pattern_only_removes_witness :
  ignoreRegex _ inside = None /\
  List.length (failures _ (validate ignoring (Some (unsafeArray 25))
                             (declare 21 (unsafeArray 25))))
  <= List.length (failures _ (validate inside (Some (unsafeArray 25))
                                (declare 21 (unsafeArray 25)))).
Proof.
  split; [reflexivity|].
  exact (proj1 (ignore_pattern_only_removes LiteralPattern testPattern
                  isConstant calleeName calleeTarget trimToLength
                  (unsafeArray 25) (declare 21 (unsafeArray 25))
                  inside someFunctionCallPattern eq_refl)).
Defined.

Lemma inert_safe_witness :
  inert (safeArray 25) = true /\
  validate ignoring (Some (safeArray 25)) (declare 21 (safeArray 25)) = ignoring.
Proof.
  split; [reflexivity|].
  exact (inert_safe LiteralPattern testPattern isConstant calleeName
           calleeTarget trimToLength (safeArray 25) eq_refl ignoring
           (declare 21 (safeArray 25))).
Defined.

Ltac describe_free :=
  apply describeFree_intro;
  [ first [exact I | reflexivity]
  | let c := fresh "c" in
    let Hc := fresh "Hc" in
    intros c Hc; cbn in Hc;
    repeat (destruct Hc as [<-|Hc]; [describe_free|]);
    destruct Hc ].

Lemma outside_describe_unchanged_witness :
  describeFree calleeName topLevelUnsafe /\
  isInDescribe _ outside = false /\
  visit outside topLevelUnsafe = outside.
Proof.
  assert (Hf : describeFree calleeName topLevelUnsafe) by describe_free.
  split; [exact Hf | split; [reflexivity|]].
  exact (outside_describe_unchanged LiteralPattern testPattern isConstant
           calleeName calleeTarget trimToLength topLevelUnsafe Hf outside
           eq_refl).
Defined.

Lemma nested_describe_transparent_witness :
  isDescribeCall calleeName (callIn innerSafe) (identifier 17 "describe") = true /\
  isInDescribe _ inside = true /\
  visit inside (callIn innerSafe)
  = walkChildren LiteralPattern testPattern isConstant calleeName calleeTarget
      trimToLength inside (childrenOf (callIn innerSafe)).
Proof.
  assert (Hd : isDescribeCall calleeName (callIn innerSafe)
                 (identifier 17 "describe") = true) by reflexivity.
  split; [exact Hd | split; [reflexivity|]].
  exact (proj1 (nested_describe_transparent LiteralPattern testPattern
                  isConstant calleeName calleeTarget trimToLength inside
                  _ _ _ _ Hd eq_refl)).
Defined.

Lemma apply_failures_anchored_witness :
  applyRule exampleFile []
  = inr [failureAt trimToLength (declare 21 (someFunctionCall 25))] /\
  Forall (reportedIn trimToLength exampleFile)
    [failureAt trimToLength (declare 21 (someFunctionCall 25))].
Proof.
  assert (H : applyRule exampleFile []
              = inr [failureAt trimToLength (declare 21 (someFunctionCall 25))])
    by reflexivity.
  split; [exact H|].
  exact (apply_failures_anchored LiteralPattern compilePattern testPattern
           isConstant calleeName calleeTarget trimToLength hasDescribeStatement
           describeStatement exampleFile [] _ H).
Defined.

(** A file that is no mocha test: the declaration that would be
    reported in a test file is not. *)
Example plain_file_not_reported :
  hasDescribeStatement plainFile = false /\ applyRule plainFile [] = inr [].
Proof. split; reflexivity. Qed.

Lemma parseOptions_last_ignore_wins_witness :
  Forall (accepted LiteralPattern compilePattern)
    [OptObject (Some "moment"); OptScalar] /\
  compilePattern "^someFunctionCall\(\)$" = Some someFunctionCallPattern /\
  parseOptions LiteralPattern compilePattern outside twoIgnores
  = inr {| isInDescribe := false; ignoreRegex := Some someFunctionCallPattern;
           failures := [] |}.
Proof.
  assert (Hpre : Forall (accepted LiteralPattern compilePattern)
                   [OptObject (Some "moment"); OptScalar]).
  { repeat constructor. simpl. discriminate. }
  assert (Hr : compilePattern "^someFunctionCall\(\)$"
               = Some someFunctionCallPattern) by reflexivity.
  split; [exact Hpre | split; [exact Hr|]].
  apply (parseOptions_last_ignore_wins LiteralPattern compilePattern outside
           [OptObject (Some "moment"); OptScalar] [OptObject None]
           "^someFunctionCall\(\)$" someFunctionCallPattern Hpre Hr).
  - repeat constructor.
  - repeat constructor. intros [source H]. discriminate H.
Defined.

Lemma null_option_throws_witness :
  Forall (accepted LiteralPattern compilePattern)
    [OptObject (Some "^someFunctionCall\(\)$")] /\
  applyRule exampleFile [OptObject (Some "^someFunctionCall\(\)$"); OptNull]
  = inl TypeError.
Proof.
  assert (Hpre : Forall (accepted LiteralPattern compilePattern)
                   [OptObject (Some "^someFunctionCall\(\)$")]).
  { repeat constructor. simpl. discriminate. }
  split; [exact Hpre|].
  exact (proj2 (null_option_throws LiteralPattern compilePattern testPattern
                  isConstant calleeName calleeTarget trimToLength
                  hasDescribeStatement describeStatement
                  [OptObject (Some "^someFunctionCall\(\)$")] [] exampleFile
                  Hpre)).
Defined.

End MochaFacts.
